(** * Bresser weather-centre decoder ([src/devices/bresser_5in1.c])

    A shallow embedding of [bresser_6in1_callback] and the properties of
    its framing, checksum and field decoding.

    Conventions
    - C integers are [Z]; the [unsigned] subtraction and addition of the
      framing code are wrapped modulo [2^32] explicitly.
    - [uint8_t msg[20]] is a list of 20 cells of type [option Z]: a cell is
      [None] until it has been written.  Reading a cell that is out of range
      or still [None], or writing out of range, is a fault.
    - [float] is IEEE-754 binary32 and [double] is binary64, both with
      round-to-nearest-even and every operation rounded to its own type
      (FLT_EVAL_METHOD 0), through the parametric operations of
      [SpecFloat].
    - The effects of the callback (records handed to the output sink,
      lines written to stderr) are threaded through a small state and
      fault monad. *)

From Stdlib Require Import ZArith List String Lia Bool QArith Qabs.
From Stdlib Require Import Floats.SpecFloat.
From stdpp Require Import base list.

Open Scope Z_scope.

(* ================================================================= *)
(** ** Floating point *)

(** C [float]. *)
Module F32.
Definition prec : Z := 24.
Definition emax : Z := 128.
(** Conversion of an [int] (value-preserving below [2^24]). *)
Definition of_int (n : Z) : spec_float := binary_normalize prec emax n 0 false.
(** Conversion of a [double], rounding to nearest. *)
Definition of_double (x : spec_float) : spec_float := SFldexp prec emax x 0.
Definition mul : spec_float -> spec_float -> spec_float := SFmul prec emax.
Definition sub : spec_float -> spec_float -> spec_float := SFsub prec emax.
Definition div : spec_float -> spec_float -> spec_float := SFdiv prec emax.
(** [x > y]. *)
Definition gt (x y : spec_float) : bool := SFltb y x.
Definition zero : spec_float := S754_zero false.
End F32.

(** C [double]. *)
Module F64.
Definition prec : Z := 53.
Definition emax : Z := 1024.
Definition of_int (n : Z) : spec_float := binary_normalize prec emax n 0 false.
(** Promotion of a [float]: exact, the mantissa is re-normalised. *)
Definition of_float (x : spec_float) : spec_float := SFldexp prec emax x 0.
Definition mul : spec_float -> spec_float -> spec_float := SFmul prec emax.
Definition div : spec_float -> spec_float -> spec_float := SFdiv prec emax.
End F64.

(** The literal [0.1f]: the binary32 number nearest to one tenth. *)
Definition lit_0_1f : spec_float := S754_finite false 13421773 (-27).

(** The literal [3.6]: the binary64 number nearest to 3.6. *)
Definition lit_3_6 : spec_float := S754_finite false 8106479329266893 (-51).

(** The exact rational value of a finite float (0 for the others). *)
Definition SF2Q (x : spec_float) : Q :=
  match x with
  | S754_finite s m e =>
      let v := match e with
               | Z0 => inject_Z (Zpos m)
               | Zpos p => inject_Z (Zpos m * 2 ^ Zpos p)
               | Zneg p => Qmake (Zpos m) (2 ^ p)%positive
               end in
      if s then Qopp v else v
  | _ => 0%Q
  end.

(* ================================================================= *)
(** ** Bit buffer *)

(** Modelled from the spec: [bitbuffer_t] of [bitbuffer.h], which is not
    among the sources.  "Bit Capture: one or more rows of bits", each with
    "a queryable bit length".  A row is stored as bytes, most significant
    bit first; a byte that is not stored reads as zero. *)
Record bitbuffer_t : Type := {
  num_rows : Z;
  bits_per_row : list Z;
  bb : list (list Z)
}.

Definition row_bits_len (b : bitbuffer_t) (row : nat) : Z :=
  default 0 (bits_per_row b !! row).

Definition row_bytes (b : bitbuffer_t) (row : nat) : list Z :=
  default [] (bb b !! row).

(** Bit [i] of a byte string, counting from the most significant bit of
    byte 0. *)
Definition bit (bytes : list Z) (i : Z) : bool :=
  Z.testbit (default 0 (bytes !! Z.to_nat (i / 8))) (7 - i mod 8).

(** The pattern of [plen] bits lies at bit offset [pos] of [bytes]. *)
Definition match_at (bytes pattern : list Z) (plen pos : Z) : bool :=
  forallb (fun i => eqb (bit bytes (pos + Z.of_nat i)) (bit pattern (Z.of_nat i)))
          (seq 0 (Z.to_nat plen)).

Fixpoint search_from (bytes : list Z) (len : Z) (pattern : list Z) (plen : Z)
         (n : nat) (pos : Z) : Z :=
  match n with
  | O => len
  | S n' =>
      if (pos + plen <=? len) && match_at bytes pattern plen pos then pos
      else search_from bytes len pattern plen n' (pos + 1)
  end.

(** Modelled from the spec: [bitbuffer_search] of [bitbuffer.c], which is
    not among the sources.  "Search the single row for the fixed preamble
    bit pattern starting at offset 0.  If no match is found before the end
    of the row, abort": the result is the first offset at or after [start]
    where the whole pattern lies inside the row, and the row's bit length
    when there is none (the caller tests [start_pos >= bits_per_row[0]]). *)
Definition bitbuffer_search (b : bitbuffer_t) (row : nat) (start : Z)
           (pattern : list Z) (pattern_bits_len : Z) : Z :=
  let len := row_bits_len b row in
  search_from (row_bytes b row) len pattern pattern_bits_len
              (Z.to_nat (len - start)) start.

(** The eight bits at offset [pos], packed most significant first. *)
Definition byte_at (bytes : list Z) (pos : Z) : Z :=
  fold_left (fun acc j => 2 * acc + Z.b2z (bit bytes (pos + Z.of_nat j)))
            (seq 0 8) 0.

(** [uint8_t out[]] with its written and unwritten cells. *)
Abbreviation buffer := (list (option Z)).

(** [out[i] = v], a fault past the end of the array. *)
Definition store (out : buffer) (i : nat) (v : Z) : option buffer :=
  if decide (i < length out)%nat then Some (<[i := Some v]> out) else None.

(** [out[i]] as an rvalue, a fault past the end or on an unwritten cell. *)
Definition load (out : buffer) (i : nat) : option Z :=
  match out !! i with
  | Some (Some v) => Some v
  | _ => None
  end.

(** Modelled from the spec: [bitbuffer_extract_bytes] of [bitbuffer.c],
    which is not among the sources.  The buffer is "populated by copying
    payload bits starting immediately after the preamble", "at a bit offset
    that need not be byte-aligned": the [len] bits from offset [pos] are
    copied in whole bytes, [(len + 7) / 8] of them, into [out[0]],
    [out[1]], ... *)
Definition bitbuffer_extract_bytes (b : bitbuffer_t) (row : nat) (pos : Z)
           (out : buffer) (len : Z) : option buffer :=
  fold_left (fun acc k =>
               match acc with
               | Some o => store o k (byte_at (row_bytes b row) (pos + 8 * Z.of_nat k))
               | None => None
               end)
            (seq 0 (Z.to_nat ((len + 7) / 8))) (Some out).

(* ================================================================= *)
(** ** Output records and the effect monad *)

(** One value of a [data_make] argument list. *)
Inductive data_value : Type :=
| DATA_STRING (s : string)
| DATA_INT (n : Z)
| DATA_DOUBLE (d : spec_float).

(** One key of a record: name, pretty name, optional [DATA_FORMAT], value. *)
Record data_field : Type := {
  key : string;
  pretty_key : string;
  format : option string;
  value : data_value
}.

Definition data_t : Type := list data_field.

(** The lines the callback writes to [stderr]. *)
Inductive diag : Type :=
| Diag_out_of_range (bits : Z)
| Diag_wrong_start
| Diag_too_short (len : Z)
| Diag_parity_wrong.

(** What the callback acts on besides its arguments. *)
Record world : Type := {
  sink : list data_t;       (* records passed to [decoder_output_data] *)
  stderr : list diag
}.

(** State passing with faults: [None] is a memory fault. *)
Definition M (A : Type) : Type := world -> option (A * world).

Definition ret {A} (a : A) : M A := fun w => Some (a, w).

Definition bind {A B} (m : M A) (k : A -> M B) : M B :=
  fun w => match m w with
           | Some (a, w') => k a w'
           | None => None
           end.

Definition lift {A} (o : option A) : M A :=
  fun w => match o with
           | Some a => Some (a, w)
           | None => None
           end.

Notation "'do' x <- m ; k" := (bind m (fun x => k))
  (at level 10, x name, m at level 100, k at level 200).
Notation "m ;; k" := (bind m (fun _ => k))
  (at level 100, k at level 200, right associativity).

Definition fprintf_stderr (d : diag) : M unit :=
  fun w => Some (tt, {| sink := sink w; stderr := stderr w ++ [d] |}).

Definition decoder_output_data (d : data_t) : M unit :=
  fun w => Some (tt, {| sink := sink w ++ [d]; stderr := stderr w |}).

Definition when (c : bool) (m : M unit) : M unit := if c then m else ret tt.

(** The one member of [r_device] the callback reads. *)
Record r_device : Type := { verbose : Z }.

Definition mk_field (k p : string) (v : data_value) : data_field :=
  {| key := k; pretty_key := p; format := None; value := v |}.

Definition mk_field_fmt (k p f : string) (v : data_value) : data_field :=
  {| key := k; pretty_key := p; format := Some f; value := v |}.

(** [unsigned] arithmetic. *)
Definition u32 (z : Z) : Z := z mod 2 ^ 32.

(* ================================================================= *)
(** ** The decoder *)

Definition preamble_pattern : list Z := [0xaa; 0xaa; 0x2d; 0xd4].

Section Decoder.

(** [DECODE_ABORT_EARLY] and [DECODE_ABORT_LENGTH] come from [decoder.h],
    which is not among the sources: they are parameters of the model. *)
Variable DECODE_ABORT_EARLY : Z.
Variable DECODE_ABORT_LENGTH : Z.

(** Lines 90 to 150 of [bresser_6in1_callback]: everything after
    [bitbuffer_extract_bytes], on the extracted [msg]. *)
Definition bresser_decode_msg (decoder : r_device) (msg : buffer) : M Z :=
  (* rain *)
  do m12 <- lift (load msg 12);
  do rain <-
    (if m12 =? 0xff then
       do m13 <- lift (load msg 13);
       do m14 <- lift (load msg 14);
       let rain_raw :=
         (0x0f - Z.shiftr (Z.land m13 0xf0) 4) * 1000
         + (0x0f - Z.land m13 0x0f) * 100
         + (0x0f - Z.shiftr (Z.land m14 0xf0) 4) * 10
         + (0x0f - Z.land m14 0x0f) in
       ret (F32.mul (F32.of_int rain_raw) lit_0_1f)
     else ret F32.zero);
  (* checksum *)
  do c2 <- lift (load msg 2);
  do c3 <- lift (load msg 3);
  do c4 <- lift (load msg 4);
  do c5 <- lift (load msg 5);
  do c6 <- lift (load msg 6);
  do c7 <- lift (load msg 7);
  do c8 <- lift (load msg 8);
  do c9 <- lift (load msg 9);
  do c10 <- lift (load msg 10);
  do c11 <- lift (load msg 11);
  do c12 <- lift (load msg 12);
  do c13 <- lift (load msg 13);
  do c14 <- lift (load msg 14);
  do c15 <- lift (load msg 15);
  do c16 <- lift (load msg 16);
  do c17 <- lift (load msg 17);
  let chksum :=
    Z.land ((0x100 - c2) + (0x100 - c3) + (0x100 - c4) + (0x100 - c5)
            + (0x100 - c6) + (0x100 - c7) + (0x100 - c8) + (0x100 - c9)
            + (0x100 - c10) + (0x100 - c11) + (0x100 - c12) + (0x100 - c13)
            + (0x100 - c14) + (0x100 - c15) + (0x100 - c16) + (0x100 - c17))
           0xff in
  if negb (chksum =? 0x01) then
    fprintf_stderr Diag_parity_wrong ;;
    ret 0
  else
    (* temperature *)
    do t12 <- lift (load msg 12);
    do t12' <- lift (load msg 12);
    do t13 <- lift (load msg 13);
    let temp_raw :=
      Z.shiftr (Z.land t12 0xf0) 4 * 100 + Z.land t12' 0x0f * 10
      + Z.shiftr (Z.land t13 0xf0) 4 in
    let temperature := F32.mul (F32.of_int temp_raw) lit_0_1f in
    let temperature :=
      if F32.gt temperature (F32.of_int 60)
      then F32.sub (F32.mul (F32.of_int temp_raw) lit_0_1f) (F32.of_int 100)
      else temperature in
    do h14 <- lift (load msg 14);
    do h14' <- lift (load msg 14);
    let humidity := Z.land h14 0x0f + Z.shiftr (Z.land h14' 0xf0) 4 * 10 in
    do d10 <- lift (load msg 10);
    do d10' <- lift (load msg 10);
    do d11 <- lift (load msg 11);
    let wind_direction_deg :=
      F32.of_int (Z.shiftr (Z.land d10 0xf0) 4 * 100 + Z.land d10' 0x0f * 10
                  + Z.shiftr (Z.land d11 0xf0) 4) in
    do g7 <- lift (load msg 7);
    do g8 <- lift (load msg 8);
    let gust_raw := (0xff - g7) * 10 + (0x0f - Z.shiftr (Z.land g8 0xf0) 4) in
    let wind_gust :=
      F32.of_double
        (F64.mul (F64.of_float (F32.mul (F32.of_int gust_raw) lit_0_1f)) lit_3_6) in
    do w9 <- lift (load msg 9);
    do w8 <- lift (load msg 8);
    let wind_raw := (0xff - w9) * 10 + 0x0f - Z.land w8 0x0f in
    let wind_avg :=
      F32.of_double
        (F64.mul (F64.of_float (F32.mul (F32.of_int wind_raw) lit_0_1f)) lit_3_6) in
    do v12 <- lift (load msg 12);
    if v12 =? 0xff then
      let data :=
        [ mk_field "model" "" (DATA_STRING "Bresser-5in1");
          mk_field_fmt "wind_gust" "Wind Gust" "%.1f km/h"
                       (DATA_DOUBLE (F64.of_float wind_gust));
          mk_field_fmt "wind_speed" "Wind Speed" "%.1f km/h"
                       (DATA_DOUBLE (F64.of_float wind_avg));
          mk_field_fmt "wind_dir_deg" "Direction" "%.1f 째"
                       (DATA_DOUBLE (F64.of_float wind_direction_deg));
          mk_field_fmt "rain_mm" "Rain" "%.1f mm"
                       (DATA_DOUBLE (F64.of_float rain));
          mk_field "mic" "Integrity" (DATA_STRING "CHECKSUM") ] in
      decoder_output_data data ;;
      ret 1
    else
      let data :=
        [ mk_field "model" "" (DATA_STRING "Bresser-5in1");
          mk_field_fmt "temperature_C" "Temperature" "%.1f C"
                       (DATA_DOUBLE (F64.of_float temperature));
          mk_field "humidity" "Humidity" (DATA_INT humidity);
          mk_field_fmt "wind_gust" "Wind Gust" "%.1f km/h"
                       (DATA_DOUBLE (F64.of_float wind_gust));
          mk_field_fmt "wind_speed" "Wind Speed" "%.1f km/h"
                       (DATA_DOUBLE (F64.of_float wind_avg));
          mk_field_fmt "wind_dir_deg" "Direction" "%.1f 째"
                       (DATA_DOUBLE (F64.of_float wind_direction_deg));
          mk_field "mic" "Integrity" (DATA_STRING "CHECKSUM") ] in
      decoder_output_data data ;;
      ret 1.

(** Lines 47 to 88: shape guard, preamble search, length guard and
    extraction, then the field decoding above. *)
Definition bresser_6in1_callback (decoder : r_device) (bitbuffer : bitbuffer_t)
  : M Z :=
  let msg : buffer := replicate 20 None in
  if negb (num_rows bitbuffer =? 1)
     || (row_bits_len bitbuffer 0 <? 160)
     || (row_bits_len bitbuffer 0 >? 230)
  then
    when (verbose decoder >? 1)
         (fprintf_stderr (Diag_out_of_range (row_bits_len bitbuffer 0))) ;;
    ret DECODE_ABORT_EARLY
  else
    let start_pos :=
      bitbuffer_search bitbuffer 0 0 preamble_pattern
                       (Z.of_nat (length preamble_pattern) * 8) in
    if start_pos >=? row_bits_len bitbuffer 0 then
      fprintf_stderr Diag_wrong_start ;;
      ret DECODE_ABORT_LENGTH
    else
      let start_pos := u32 (start_pos + Z.of_nat (length preamble_pattern) * 8) in
      let len := u32 (row_bits_len bitbuffer 0 - start_pos) in
      if len <? 144 then
        when (verbose decoder >? 1) (fprintf_stderr (Diag_too_short len)) ;;
        ret DECODE_ABORT_LENGTH
      else
        (* truncate any excessive bits *)
        let len := Z.min len (Z.of_nat (length msg) * 8) in
        do msg <- lift (bitbuffer_extract_bytes bitbuffer 0 start_pos msg len);
        bresser_decode_msg decoder msg.

End Decoder.

(* ================================================================= *)
(** ** Vocabulary of the properties *)

(** The capture passes the shape guard of lines 59 to 61. *)
Definition shape_ok (b : bitbuffer_t) : Prop :=
  num_rows b = 1 /\ 160 <= row_bits_len b 0 <= 230.

(** The preamble lies at bit offset [p] of row 0, wholly inside the row. *)
Definition preamble_at (b : bitbuffer_t) (p : Z) : Prop :=
  0 <= p /\ p + 32 <= row_bits_len b 0 /\
  forall i, 0 <= i < 32 -> bit (row_bytes b 0) (p + i) = bit preamble_pattern i.

(** [p] is the first offset of the preamble in row 0. *)
Definition first_preamble (b : bitbuffer_t) (p : Z) : Prop :=
  preamble_at b p /\ forall q, q < p -> ~ preamble_at b q.

(** Offset of the first payload bit: what [start_pos] holds at line 75. *)
Definition payload_pos (b : bitbuffer_t) : Z :=
  bitbuffer_search b 0 0 preamble_pattern 32 + 32.

(** The capture passes shape guard, preamble search and length guard. *)
Definition framed (b : bitbuffer_t) : Prop :=
  shape_ok b /\
  bitbuffer_search b 0 0 preamble_pattern 32 < row_bits_len b 0 /\
  144 <= row_bits_len b 0 - payload_pos b.

(** Byte [i] of the extracted message buffer. *)
Definition extracted (b : bitbuffer_t) (i : nat) : Z :=
  byte_at (row_bytes b 0) (payload_pos b + 8 * Z.of_nat i).

(** The 18 bytes that every framed capture provides. *)
Definition payload (b : bitbuffer_t) : list Z := map (extracted b) (seq 0 18).

(** [sum (0x100 - b)] over [count] bytes from index [first], masked to
    eight bits. *)
Definition checksum_span (byte : nat -> Z) (first count : nat) : Z :=
  fold_right (fun i acc => (0x100 - byte i) + acc) 0 (seq first count) mod 256.

(** The value stored under a key of a record. *)
Definition field (k : string) (d : data_t) : option data_value :=
  option_map value (find (fun f => String.eqb (key f) k) d).

Definition keys (d : data_t) : list string := map key d.

(** The [n] integers from [z] on, and those from 0 on. *)
Fixpoint count_from (z : Z) (n : nat) : list Z :=
  match n with
  | O => []
  | S n' => z :: count_from (z + 1) n'
  end.

Definition upto (n : Z) : list Z := count_from 0 (Z.to_nat n).

(** [|v - x| <= eps] on the exact value of a float. *)
Definition within (v : spec_float) (x eps : Q) : bool :=
  Qle_bool (Qabs (SF2Q v - x)) eps.

(** *** The field formulas, in the words of the specification *)

(** High and low nibble of a byte. *)
Definition hi (x : Z) : Z := x / 16.
Definition lo (x : Z) : Z := x mod 16.

(** [raw * 0.1f]: an integer number of tenths scaled to units, in [float]. *)
Definition tenths (raw : Z) : spec_float := F32.mul (F32.of_int raw) lit_0_1f.

(** [raw * 0.1f * 3.6] stored in a [float]: tenths of m/s scaled to km/h. *)
Definition kmh (raw : Z) : spec_float :=
  F32.of_double (F64.mul (F64.of_float (tenths raw)) lit_3_6).

Definition spec_temp_raw (B : nat -> Z) : Z :=
  hi (B 12%nat) * 100 + lo (B 12%nat) * 10 + hi (B 13%nat).

(** The scaled magnitude as it is up to 60.0, less 100.0 above. *)
Definition spec_temperature (raw : Z) : spec_float :=
  let scaled := tenths raw in
  if SFleb scaled (F32.of_int 60) then scaled else F32.sub scaled (F32.of_int 100).

Definition spec_humidity (B : nat -> Z) : Z :=
  hi (B 14%nat) * 10 + lo (B 14%nat).

Definition spec_wind_dir (B : nat -> Z) : Z :=
  hi (B 10%nat) * 100 + lo (B 10%nat) * 10 + hi (B 11%nat).

Definition spec_gust_raw (B : nat -> Z) : Z :=
  (0xff - B 7%nat) * 10 + (0x0f - hi (B 8%nat)).

Definition spec_wind_raw (B : nat -> Z) : Z :=
  (0xff - B 9%nat) * 10 + (0x0f - lo (B 8%nat)).

Definition spec_rain_raw (B : nat -> Z) : Z :=
  (15 - hi (B 13%nat)) * 1000 + (15 - lo (B 13%nat)) * 100
  + (15 - hi (B 14%nat)) * 10 + (15 - lo (B 14%nat)).

(** The record of the rain variant. *)
Definition rain_record (B : nat -> Z) : data_t :=
  [ mk_field "model" "" (DATA_STRING "Bresser-5in1");
    mk_field_fmt "wind_gust" "Wind Gust" "%.1f km/h"
                 (DATA_DOUBLE (F64.of_float (kmh (spec_gust_raw B))));
    mk_field_fmt "wind_speed" "Wind Speed" "%.1f km/h"
                 (DATA_DOUBLE (F64.of_float (kmh (spec_wind_raw B))));
    mk_field_fmt "wind_dir_deg" "Direction" "%.1f 째"
                 (DATA_DOUBLE (F64.of_float (F32.of_int (spec_wind_dir B))));
    mk_field_fmt "rain_mm" "Rain" "%.1f mm"
                 (DATA_DOUBLE (F64.of_float (tenths (spec_rain_raw B))));
    mk_field "mic" "Integrity" (DATA_STRING "CHECKSUM") ].

(** The record of the weather variant. *)
Definition weather_record (B : nat -> Z) : data_t :=
  [ mk_field "model" "" (DATA_STRING "Bresser-5in1");
    mk_field_fmt "temperature_C" "Temperature" "%.1f C"
                 (DATA_DOUBLE (F64.of_float (spec_temperature (spec_temp_raw B))));
    mk_field "humidity" "Humidity" (DATA_INT (spec_humidity B));
    mk_field_fmt "wind_gust" "Wind Gust" "%.1f km/h"
                 (DATA_DOUBLE (F64.of_float (kmh (spec_gust_raw B))));
    mk_field_fmt "wind_speed" "Wind Speed" "%.1f km/h"
                 (DATA_DOUBLE (F64.of_float (kmh (spec_wind_raw B))));
    mk_field_fmt "wind_dir_deg" "Direction" "%.1f 째"
                 (DATA_DOUBLE (F64.of_float (F32.of_int (spec_wind_dir B))));
    mk_field "mic" "Integrity" (DATA_STRING "CHECKSUM") ].

(** The world after one more record, and after one more stderr line. *)
Definition delivered (w : world) (d : data_t) : world :=
  {| sink := sink w ++ [d]; stderr := stderr w |}.

Definition complained (w : world) (d : diag) : world :=
  {| sink := sink w; stderr := stderr w ++ [d] |}.

(** *** Acceptance *)

(** The capture is framed and its checksum over bytes 2 to 17 is 0x01. *)
Definition accepted (b : bitbuffer_t) : Prop :=
  framed b /\ checksum_span (extracted b) 2 16 = 1.

(** The record the decoder builds for an accepted capture. *)
Definition record_of (b : bitbuffer_t) : data_t :=
  if extracted b 12 =? 0xff then rain_record (extracted b)
  else weather_record (extracted b).

(** The four outcomes of a call: the code returned for capture [b] and
    what the call leaves in the sink, by the condition that selects it.
    [early] and [length] are the two abort codes. *)
Definition outcome (early length : Z) (b : bitbuffer_t) (w w' : world) (code : Z)
  : Prop :=
  (~ shape_ok b /\ code = early /\ sink w' = sink w)
  \/ (shape_ok b
      /\ ((forall p, ~ preamble_at b p)
          \/ (exists p, first_preamble b p /\ row_bits_len b 0 - (p + 32) < 144))
      /\ code = length /\ sink w' = sink w)
  \/ (shape_ok b
      /\ (exists p, first_preamble b p /\ 144 <= row_bits_len b 0 - (p + 32))
      /\ checksum_span (extracted b) 2 16 <> 1
      /\ code = 0 /\ sink w' = sink w)
  \/ (shape_ok b
      /\ (exists p, first_preamble b p /\ 144 <= row_bits_len b 0 - (p + 32))
      /\ checksum_span (extracted b) 2 16 = 1
      /\ code = 1 /\ sink w' = sink w ++ [record_of b]).

(** *** Sample captures *)

Definition w0 : world := {| sink := []; stderr := [] |}.

Definition quiet : r_device := {| verbose := 0 |}.

(** A capture of one row. *)
Definition one_row (bits : Z) (bytes : list Z) : bitbuffer_t :=
  {| num_rows := 1; bits_per_row := [bits]; bb := [bytes] |}.

(** The first sample payload of the header comment (lines 22 to 24). *)
Definition sample_payload : list Z :=
  [ 0xee; 0x93; 0x7f; 0xf7; 0xbf; 0xfb; 0xef; 0x9e; 0xfe; 0xae; 0xbf; 0xff; 0xff;
    0x11; 0x6c; 0x80; 0x08; 0x40; 0x04; 0x10; 0x61; 0x01; 0x51; 0x40; 0x00; 0x00 ].

(** The preamble followed by the sample payload, cut to [bits] bits. *)
Definition fixture (bits : Z) : bitbuffer_t :=
  one_row bits (preamble_pattern ++ sample_payload).

(** The same with the seven byte preamble of the header comment. *)
Definition fixture_long (bits : Z) : bitbuffer_t :=
  one_row bits ([0xaa; 0xaa; 0xaa; 0xaa; 0xaa; 0x2d; 0xd4] ++ sample_payload).

(** A weather packet behind the seven byte preamble: gust raw 100, average
    raw 52, direction 270, temperature raw 312, humidity 80. *)
Definition weather_capture : bitbuffer_t :=
  one_row 200
    [ 0xaa; 0xaa; 0xaa; 0xaa; 0xaa; 0x2d; 0xd4;
      0xee; 0x93; 0x7f; 0xf7; 0xbf; 0xfb; 0xef; 0xf5; 0xfd; 0xfa; 0x27; 0x00; 0x31;
      0x20; 0x80; 0x6c; 0x08; 0x88 ].

(** A rain packet that starts four bits into the row, so that no payload
    byte is aligned: rain raw 123. *)
Definition rain_capture : bitbuffer_t :=
  one_row 180
    [ 0xaa; 0xaa; 0xa2; 0xdd; 0x4e; 0xe9; 0x37; 0xff; 0x7b; 0xff; 0xbe; 0xff; 0x5f;
      0xdf; 0xa2; 0x70; 0x0f; 0xff; 0xed; 0xc6; 0xc0; 0x88; 0x00 ].

(** A weather packet with temperature raw 812, direction 999 and both
    nibbles of byte 14 at 0xf. *)
Definition cold_capture : bitbuffer_t :=
  one_row 176
    [ 0xaa; 0xaa; 0x2d; 0xd4;
      0xee; 0x93; 0x7f; 0xf7; 0xbf; 0xfb; 0xef; 0xf5; 0xfd; 0xfa; 0x99; 0x90; 0x81;
      0x20; 0xff; 0x6c; 0x08; 0xb7 ].

(** Bytes 2 to 15 sum to 0x01, byte 16 is 1. *)
Definition span14_capture : bitbuffer_t :=
  one_row 176
    [ 0xaa; 0xaa; 0x2d; 0xd4;
      0x00; 0x00; 0xff; 0x00; 0x00; 0x00; 0x00; 0x00; 0x00; 0x00; 0x00; 0x00; 0x00;
      0x00; 0x00; 0x00; 0x01; 0x00 ].

(** The same with byte 16 at 0. *)
Definition span16_capture : bitbuffer_t :=
  one_row 176
    [ 0xaa; 0xaa; 0x2d; 0xd4;
      0x00; 0x00; 0xff; 0x00; 0x00; 0x00; 0x00; 0x00; 0x00; 0x00; 0x00; 0x00; 0x00;
      0x00; 0x00; 0x00; 0x00; 0x00 ].

(** A row of 160 bits with the preamble at its start: 128 payload bits. *)
Definition short_capture : bitbuffer_t :=
  one_row 160 [ 0xaa; 0xaa; 0x2d; 0xd4; 0xee; 0x93 ].

(** *** The declared fields and further vocabulary *)

(** [output_fields] (lines 153 to 166): the keys the device declares to
    the host. *)
Definition output_fields : list string :=
  [ "model"; "id"; "temperature_C"; "humidity"; "wind_gust"; "wind_speed";
    "wind_dir_deg"; "rain_mm"; "mic" ]%string.

(** The plain sum of the bytes at indices 2 to 17. *)
Definition span_sum (B : nat -> Z) : Z :=
  fold_right (fun i acc => B i + acc) 0 (seq 2 16).

(** The byte string [B] with the byte at index [k] replaced by [v]. *)
Definition set_byte (B : nat -> Z) (k : nat) (v : Z) : nat -> Z :=
  fun i => if Nat.eqb i k then v else B i.

(** Neither infinite nor NaN. *)
Definition finite (x : spec_float) : bool :=
  match x with
  | S754_finite _ _ _ | S754_zero _ => true
  | _ => false
  end.

(** [lo <= x <= hi] and [x < y] on exact values, as tests. *)
Definition between (lo hi : Q) (x : spec_float) : bool :=
  finite x && Qle_bool lo (SF2Q x) && Qle_bool (SF2Q x) hi.

Definition below (x y : spec_float) : bool := negb (Qle_bool (SF2Q y) (SF2Q x)).

(** Return code and sink of a run, without the stderr lines. *)
Definition observable (r : option (Z * world)) : option (Z * list data_t) :=
  option_map (fun cw => (fst cw, sink (snd cw))) r.

(** The weather packet of [weather_capture] behind the four byte
    preamble, with other bytes 0 and 1 and three more bytes after
    byte 17. *)
Definition weather_alt_capture : bitbuffer_t :=
  one_row 200
    [ 0xaa; 0xaa; 0x2d; 0xd4;
      0x12; 0x34; 0x7f; 0xf7; 0xbf; 0xfb; 0xef; 0xf5; 0xfd; 0xfa; 0x27; 0x00; 0x31;
      0x20; 0x80; 0x6c; 0x08; 0x88; 0x55; 0xaa; 0x0f ].

(** The weather packet with bytes 7 and 9 exchanged. *)
Definition swapped_capture : bitbuffer_t :=
  one_row 176
    [ 0xaa; 0xaa; 0x2d; 0xd4;
      0xee; 0x93; 0x7f; 0xf7; 0xbf; 0xfb; 0xef; 0xfa; 0xfd; 0xf5; 0x27; 0x00; 0x31;
      0x20; 0x80; 0x6c; 0x08; 0x88 ].

(** The weather packet with other bytes 0 to 6, 15 and 16, and byte 17
    set for the checksum. *)
Definition refit_capture : bitbuffer_t :=
  one_row 176
    [ 0xaa; 0xaa; 0x2d; 0xd4;
      0x01; 0x02; 0x10; 0x20; 0x30; 0x40; 0x50; 0xf5; 0xfd; 0xfa; 0x27; 0x00; 0x31;
      0x20; 0x80; 0x99; 0x77; 0x1b ].

(** A row of 175 bits that starts with the preamble. *)
Definition row175_capture : bitbuffer_t :=
  one_row 175
    [ 0xaa; 0xaa; 0x2d; 0xd4;
      0xee; 0x93; 0x7f; 0xf7; 0xbf; 0xfb; 0xef; 0xf5; 0xfd; 0xfa; 0x27; 0x00; 0x31;
      0x20; 0x80; 0x6c; 0x08; 0x88 ].

(** A world that already holds a record and a stderr line. *)
Definition w1 : world :=
  {| sink := [rain_record (fun _ => 0)]; stderr := [Diag_wrong_start] |}.

(** A decoder at verbosity 2. *)
Definition chatty : r_device := {| verbose := 2 |}.

(** The sample captures are evaluated. *)
Ltac by_evaluation :=
  unfold accepted, framed, shape_ok, payload_pos;
  vm_compute; split_and?; first [reflexivity | discriminate].

(** Two sample captures have the same extracted byte at each index asked. *)
Ltac same_bytes :=
  let i := fresh "i" in
  intros i; intros;
  do 18 (destruct i as [|i]; [first [lia | vm_compute; reflexivity] |]); lia.

(* ================================================================= *)
(** ** Bytes and nibbles *)

Lemma byte_at_range (bytes : list Z) (pos : Z) : 0 <= byte_at bytes pos < 256.
Proof.
  unfold byte_at. cbn [fold_left seq].
  repeat match goal with
         | |- context [Z.b2z ?x] =>
             let H := fresh in
             assert (H : 0 <= Z.b2z x <= 1) by (destruct x; simpl; lia);
             generalize dependent (Z.b2z x); intros
         end.
  lia.
Qed.

Lemma extracted_range (b : bitbuffer_t) (i : nat) : 0 <= extracted b i < 256.
Proof. apply byte_at_range. Qed.

Lemma lo_nibble (x : Z) : 0 <= x -> Z.land x 0x0f = lo x.
Proof. intros _. change 0x0f with (Z.ones 4). now rewrite Z.land_ones by lia. Qed.

Lemma hi_nibble (x : Z) : 0 <= x < 256 -> Z.shiftr (Z.land x 0xf0) 4 = hi x.
Proof.
  intros Hx. unfold hi. rewrite Z.shiftr_land. change (Z.shiftr 0xf0 4) with (Z.ones 4).
  rewrite Z.land_ones, Z.shiftr_div_pow2 by lia.
  change (2 ^ 4) with 16. apply Z.mod_small.
  split; [apply Z.div_pos; lia | apply Z.div_lt_upper_bound; lia].
Qed.

Lemma mask8 (x : Z) : Z.land x 0xff = x mod 256.
Proof. change 0xff with (Z.ones 8). now rewrite Z.land_ones by lia. Qed.

Lemma count_from_In (n : nat) (z r : Z) :
  z <= r < z + Z.of_nat n -> In r (count_from z n).
Proof.
  revert z. induction n as [|n IH]; intros z Hr; cbn [count_from]; [lia|].
  destruct (Z.eq_dec r z) as [-> | Hne]; [now left | right; apply IH; lia].
Qed.

Lemma upto_forall (f : Z -> bool) (n : Z) :
  forallb f (upto n) = true -> forall r, 0 <= r < n -> f r = true.
Proof.
  intros H r Hr. rewrite forallb_forall in H. apply H.
  apply count_from_In. lia.
Qed.

(* ================================================================= *)
(** ** The preamble search *)

Lemma match_at_spec (bytes pattern : list Z) (plen pos : Z) :
  match_at bytes pattern plen pos = true <->
  forall i, 0 <= i < plen -> bit bytes (pos + i) = bit pattern i.
Proof.
  unfold match_at. rewrite forallb_forall. split.
  - intros H i Hi. specialize (H (Z.to_nat i)).
    rewrite Z2Nat.id in H by lia. apply eqb_prop, H, in_seq. lia.
  - intros H i Hi. apply in_seq in Hi. rewrite H by lia. apply eqb_reflx.
Qed.

Lemma search_from_spec (bytes : list Z) (len : Z) (pattern : list Z) (plen : Z)
      (n : nat) (pos : Z) :
  let r := search_from bytes len pattern plen n pos in
  (r = len /\
   forall q, pos <= q < pos + Z.of_nat n ->
             ~ (q + plen <= len /\ match_at bytes pattern plen q = true))
  \/
  (pos <= r < pos + Z.of_nat n /\ r + plen <= len /\
   match_at bytes pattern plen r = true /\
   forall q, pos <= q < r ->
             ~ (q + plen <= len /\ match_at bytes pattern plen q = true)).
Proof.
  revert pos. induction n as [|n IH]; intros pos; cbn [search_from].
  - left. split; [reflexivity | lia].
  - destruct ((pos + plen <=? len) && match_at bytes pattern plen pos) eqn:Hhere.
    + apply andb_true_iff in Hhere as [Hle%Z.leb_le Hm].
      right. split_and!; try lia; try assumption.
    + assert (Hpos : ~ (pos + plen <= len /\ match_at bytes pattern plen pos = true)).
      { intros [Hle%Z.leb_le Hm]. rewrite Hle, Hm in Hhere. discriminate. }
      destruct (IH (pos + 1)) as [[-> Hno] | (Hr & Hin & Hmr & Hno)];
        [left | right]; split_and!; try lia; try assumption; try reflexivity;
        intros q Hq; (destruct (Z.eq_dec q pos) as [-> | Hne];
                      [assumption | apply Hno; lia]).
Qed.

Lemma search_preamble (b : bitbuffer_t) :
  let r := bitbuffer_search b 0 0 preamble_pattern 32 in
  (r = row_bits_len b 0 /\ forall p, ~ preamble_at b p) \/ first_preamble b r.
Proof.
  unfold bitbuffer_search.
  destruct (search_from_spec (row_bytes b 0) (row_bits_len b 0) preamble_pattern 32
              (Z.to_nat (row_bits_len b 0 - 0)) 0)
    as [[Hr Hno] | (Hr & Hin & Hm & Hno)]; cbn zeta.
  - left. split; [assumption|]. intros p (Hp0 & Hp1 & Hp2).
    apply (Hno p); [lia|]. split; [assumption|]. now apply match_at_spec.
  - right. split.
    + split_and!; [lia | assumption | now apply match_at_spec].
    + intros q Hq (Hq0 & Hq1 & Hq2).
      apply (Hno q); [lia|]. split; [assumption|]. now apply match_at_spec.
Qed.

Lemma first_preamble_unique (b : bitbuffer_t) (p q : Z) :
  first_preamble b p -> first_preamble b q -> p = q.
Proof.
  intros [Hp Hp'] [Hq Hq'].
  destruct (Z.lt_trichotomy p q) as [H | [H | H]]; [|assumption|].
  - destruct (Hq' p H Hp).
  - destruct (Hp' q H Hq).
Qed.

(* ================================================================= *)
(** ** Extraction into the message buffer *)

Lemma load_store (out : buffer) (i : nat) (v : Z) (out' : buffer) :
  store out i v = Some out' ->
  length out' = length out /\
  load out' i = Some v /\
  forall j, j <> i -> out' !! j = out !! j.
Proof.
  unfold store, load. destruct (decide (i < length out)%nat) as [Hi|]; [|discriminate].
  intros [= <-]. split_and!.
  - apply length_insert.
  - now rewrite list_lookup_insert_eq.
  - intros j Hj. now rewrite list_lookup_insert_ne.
Qed.

Lemma extract_bytes_spec (b : bitbuffer_t) (row : nat) (pos : Z) (out : buffer)
      (len : Z) :
  (Z.to_nat ((len + 7) / 8) <= length out)%nat ->
  exists msg,
    bitbuffer_extract_bytes b row pos out len = Some msg /\
    length msg = length out /\
    (forall i, (i < Z.to_nat ((len + 7) / 8))%nat ->
               load msg i = Some (byte_at (row_bytes b row) (pos + 8 * Z.of_nat i))) /\
    (forall i, (Z.to_nat ((len + 7) / 8) <= i)%nat -> msg !! i = out !! i).
Proof.
  unfold bitbuffer_extract_bytes.
  induction (Z.to_nat ((len + 7) / 8)) as [|n IH]; intros Hn.
  - exists out. cbn. split_and!; [reflexivity | reflexivity | lia | reflexivity].
  - destruct IH as (msg & Hrun & Hlen & Hin & Hout); [lia|].
    rewrite seq_S, fold_left_app, Hrun. cbn [fold_left Nat.add].
    destruct (store msg n (byte_at (row_bytes b row) (pos + 8 * Z.of_nat n)))
      as [msg'|] eqn:Hst.
    + apply load_store in Hst as (Hlen' & Hld & Hother).
      exists msg'. split_and!; [reflexivity | congruence | |].
      * intros i Hi. destruct (decide (i = n)) as [-> | Hne]; [assumption|].
        unfold load. rewrite Hother by assumption. apply Hin. lia.
      * intros i Hi. rewrite Hother by lia. apply Hout. lia.
    + unfold store in Hst. destruct (decide (n < length msg)%nat); [discriminate | lia].
Qed.

(** The decoding reads no cell beyond index 17. *)
Lemma decode_msg_agree (decoder : r_device) (msg msg' : buffer) :
  (forall i, (i < 18)%nat -> load msg i = load msg' i) ->
  bresser_decode_msg decoder msg = bresser_decode_msg decoder msg'.
Proof.
  intros H. unfold bresser_decode_msg.
  rewrite !(H 2%nat), !(H 3%nat), !(H 4%nat), !(H 5%nat), !(H 6%nat), !(H 7%nat),
    !(H 8%nat), !(H 9%nat), !(H 10%nat), !(H 11%nat), !(H 12%nat), !(H 13%nat),
    !(H 14%nat), !(H 15%nat), !(H 16%nat), !(H 17%nat) by lia.
  reflexivity.
Qed.

Lemma load_bytes (B : nat -> Z) (i : nat) :
  (i < 18)%nat -> load (map Some (map B (seq 0 18))) i = Some (B i).
Proof.
  intros Hi. unfold load.
  rewrite !list_lookup_fmap, lookup_seq_lt by assumption. reflexivity.
Qed.

Lemma load_payload (b : bitbuffer_t) (i : nat) :
  (i < 18)%nat -> load (map Some (payload b)) i = Some (extracted b i).
Proof. apply load_bytes. Qed.

(* ================================================================= *)
(** ** The framing stage of the callback *)

Lemma framed_first_preamble (b : bitbuffer_t) :
  framed b -> first_preamble b (payload_pos b - 32).
Proof.
  intros (_ & Hsync & _). unfold payload_pos.
  destruct (search_preamble b) as [[Hr _] | Hfirst]; cbn zeta in *; [lia|].
  now replace (bitbuffer_search b 0 0 preamble_pattern 32 + 32 - 32)
    with (bitbuffer_search b 0 0 preamble_pattern 32) by lia.
Qed.

Section Framing.

Variable DECODE_ABORT_EARLY : Z.
Variable DECODE_ABORT_LENGTH : Z.

Local Abbreviation callback :=
  (bresser_6in1_callback DECODE_ABORT_EARLY DECODE_ABORT_LENGTH).

(** A framed capture reaches the field decoding, with the 18 payload
    bytes in the buffer. *)
Lemma callback_framed (decoder : r_device) (b : bitbuffer_t) (w : world) :
  framed b ->
  callback decoder b w = bresser_decode_msg decoder (map Some (payload b)) w.
Proof.
  intros Hf. pose proof (framed_first_preamble b Hf) as [(Hp0 & Hp1 & _) _].
  destruct Hf as ((Hrows & Hlo & Hhi) & Hsync & Hlen).
  unfold payload_pos in *. unfold callback, bresser_6in1_callback.
  set (r := bitbuffer_search b 0 0 preamble_pattern 32) in *.
  change (Z.of_nat (length preamble_pattern) * 8) with 32. fold r.
  change (Z.of_nat (length (replicate 20 (@None Z))) * 8) with 160.
  assert (Hshape : negb (num_rows b =? 1) || (row_bits_len b 0 <? 160)
                   || (row_bits_len b 0 >? 230) = false).
  { rewrite Hrows. cbn. rewrite orb_false_iff, Z.ltb_ge, Z.gtb_ltb, Z.ltb_ge. lia. }
  rewrite Hshape.
  assert (Hge : (r >=? row_bits_len b 0) = false)
    by (rewrite Z.geb_leb, Z.leb_gt; lia).
  rewrite Hge.
  assert (Hu : u32 (r + 32) = r + 32) by (apply Z.mod_small; lia).
  rewrite Hu.
  assert (Hu' : u32 (row_bits_len b 0 - (r + 32)) = row_bits_len b 0 - (r + 32))
    by (apply Z.mod_small; lia).
  rewrite Hu'.
  assert (Hlt : (row_bits_len b 0 - (r + 32) <? 144) = false)
    by (rewrite Z.ltb_ge; lia).
  rewrite Hlt.
  set (len := Z.min (row_bits_len b 0 - (r + 32)) 160).
  assert (Hn : (18 <= Z.to_nat ((len + 7) / 8) <= 20)%nat).
  { assert (144 <= len <= 160) by (unfold len; lia).
    assert (18 <= (len + 7) / 8) by (apply Z.div_le_lower_bound; lia).
    assert ((len + 7) / 8 < 21) by (apply Z.div_lt_upper_bound; lia).
    lia. }
  destruct (extract_bytes_spec b 0 (r + 32) (replicate 20 None) len)
    as (msg & Hrun & _ & Hin & _).
  { rewrite length_replicate. lia. }
  unfold bind at 1. unfold lift at 1. rewrite Hrun.
  rewrite (decode_msg_agree decoder msg (map Some (payload b))); [reflexivity|].
  intros i Hi. rewrite load_payload by assumption. rewrite Hin by lia.
  unfold extracted, payload_pos. fold r. reflexivity.
Qed.

(** A capture that is not framed is turned away with an abort code and
    nothing reaches the sink. *)
Lemma callback_unframed (decoder : r_device) (b : bitbuffer_t) (w : world) :
  ~ framed b ->
  exists w',
    sink w' = sink w /\
    callback decoder b w =
      Some (if decide (shape_ok b) then DECODE_ABORT_LENGTH else DECODE_ABORT_EARLY,
            w').
Proof.
  intros Hnf. unfold callback, bresser_6in1_callback.
  change (Z.of_nat (length preamble_pattern) * 8) with 32.
  destruct (decide (shape_ok b)) as [Hs | Hs].
  - destruct Hs as (Hrows & Hlo & Hhi).
    assert (Hshape : negb (num_rows b =? 1) || (row_bits_len b 0 <? 160)
                     || (row_bits_len b 0 >? 230) = false).
    { rewrite Hrows. cbn. rewrite orb_false_iff, Z.ltb_ge, Z.gtb_ltb, Z.ltb_ge. lia. }
    rewrite Hshape.
    set (r := bitbuffer_search b 0 0 preamble_pattern 32).
    destruct (r >=? row_bits_len b 0) eqn:Hge.
    + eexists. split; [|reflexivity]. reflexivity.
    + rewrite Z.geb_leb, Z.leb_gt in Hge.
      destruct (search_preamble b) as [[Hr _] | ((Hp0 & Hp1 & _) & _)];
        cbn zeta in *; fold r in Hr || fold r in Hp0, Hp1; [lia|].
      assert (Hu : u32 (r + 32) = r + 32) by (apply Z.mod_small; lia).
      rewrite Hu.
      assert (Hu' : u32 (row_bits_len b 0 - (r + 32)) = row_bits_len b 0 - (r + 32))
        by (apply Z.mod_small; lia).
      rewrite Hu'.
      destruct (row_bits_len b 0 - (r + 32) <? 144) eqn:Hlt.
      * destruct (verbose decoder >? 1); eexists; (split; [|reflexivity]); reflexivity.
      * exfalso. apply Hnf. rewrite Z.ltb_ge in Hlt. unfold framed, shape_ok, payload_pos.
        fold r. lia.
  - assert (Hshape : negb (num_rows b =? 1) || (row_bits_len b 0 <? 160)
                     || (row_bits_len b 0 >? 230) = true).
    { unfold shape_ok in Hs.
      destruct (Z.eqb_spec (num_rows b) 1); cbn; [|reflexivity].
      rewrite orb_true_iff, Z.ltb_lt, Z.gtb_ltb, Z.ltb_lt. lia. }
    rewrite Hshape.
    destruct (verbose decoder >? 1); eexists; (split; [|reflexivity]); reflexivity.
Qed.

End Framing.

(* ================================================================= *)
(** ** The field decoding on the payload bytes *)

Lemma tenths_threshold (raw : Z) :
  0 <= raw < 1666 ->
  F32.gt (tenths raw) (F32.of_int 60) = negb (SFleb (tenths raw) (F32.of_int 60)).
Proof.
  intros Hr.
  apply eqb_prop.
  apply (upto_forall
           (fun r => eqb (F32.gt (tenths r) (F32.of_int 60))
                         (negb (SFleb (tenths r) (F32.of_int 60)))) 1666);
    [vm_compute; reflexivity | assumption].
Qed.

Lemma hi_range (x : Z) : 0 <= x < 256 -> 0 <= hi x < 16.
Proof.
  unfold hi. intros Hx.
  split; [apply Z.div_pos; lia | apply Z.div_lt_upper_bound; lia].
Qed.

Lemma lo_range (x : Z) : 0 <= lo x < 16.
Proof. unfold lo. apply Z.mod_pos_bound. lia. Qed.

Lemma checksum_16 (B : nat -> Z) :
  Z.land ((0x100 - B 2%nat) + (0x100 - B 3%nat) + (0x100 - B 4%nat)
          + (0x100 - B 5%nat) + (0x100 - B 6%nat) + (0x100 - B 7%nat)
          + (0x100 - B 8%nat) + (0x100 - B 9%nat) + (0x100 - B 10%nat)
          + (0x100 - B 11%nat) + (0x100 - B 12%nat) + (0x100 - B 13%nat)
          + (0x100 - B 14%nat) + (0x100 - B 15%nat) + (0x100 - B 16%nat)
          + (0x100 - B 17%nat)) 0xff
  = checksum_span B 2 16.
Proof.
  rewrite mask8. unfold checksum_span. cbn [seq fold_right]. f_equal. lia.
Qed.

(** What the field decoding does on a buffer that holds the 18 bytes
    [B 0], ..., [B 17]. *)
Lemma decode_bytes (decoder : r_device) (B : nat -> Z) (w : world) :
  (forall i, 0 <= B i < 256) ->
  bresser_decode_msg decoder (map Some (map B (seq 0 18))) w =
    if checksum_span B 2 16 =? 1 then
      Some (1, delivered w (if B 12%nat =? 0xff then rain_record B
                            else weather_record B))
    else Some (0, complained w Diag_parity_wrong).
Proof.
  intros R. unfold bresser_decode_msg.
  rewrite !load_bytes by lia.
  cbv beta iota zeta delta [bind lift ret].
  rewrite checksum_16.
  rewrite !hi_nibble, !lo_nibble by (apply R || apply (R _)).
  assert (Hraw : 0 <= spec_temp_raw B < 1666).
  { unfold spec_temp_raw.
    pose proof (hi_range _ (R 12%nat)). pose proof (lo_range (B 12%nat)).
    pose proof (hi_range _ (R 13%nat)). lia. }
  pose proof (tenths_threshold _ Hraw) as HT.
  unfold spec_temp_raw, tenths in HT. rewrite HT. clear HT Hraw.
  unfold delivered, complained, decoder_output_data, fprintf_stderr, rain_record,
    weather_record, spec_temperature, spec_temp_raw, spec_humidity, spec_wind_dir,
    spec_gust_raw, spec_wind_raw, spec_rain_raw, kmh, tenths.
  replace ((255 - B 9%nat) * 10 + 15 - lo (B 8%nat))
    with ((255 - B 9%nat) * 10 + (15 - lo (B 8%nat))) by lia.
  replace (lo (B 14%nat) + hi (B 14%nat) * 10)
    with (hi (B 14%nat) * 10 + lo (B 14%nat)) by lia.
  destruct (B 12%nat =? 255);
    (destruct (checksum_span B 2 16 =? 1); cbn [negb]; [|reflexivity]).
  - reflexivity.
  - destruct (SFleb _ _); reflexivity.
Qed.

(** What the field decoding does on the 18 payload bytes of a capture. *)
Lemma decode_payload (decoder : r_device) (b : bitbuffer_t) (w : world) :
  bresser_decode_msg decoder (map Some (payload b)) w =
    if checksum_span (extracted b) 2 16 =? 1 then
      Some (1, delivered w (if extracted b 12 =? 0xff
                            then rain_record (extracted b)
                            else weather_record (extracted b)))
    else Some (0, complained w Diag_parity_wrong).
Proof. apply decode_bytes, extracted_range. Qed.

(* ================================================================= *)
(** ** Numeric facts on the scaled values *)

Lemma within_spec (v : spec_float) (x eps : Q) :
  within v x eps = true -> (Qabs (SF2Q v - x) <= eps)%Q.
Proof. unfold within. apply Qle_bool_iff. Qed.

Lemma tenths_close (raw : Z) :
  0 <= raw < 16666 ->
  (Qabs (SF2Q (F64.of_float (tenths raw)) - inject_Z raw / 10) <= 1 # 10000)%Q.
Proof.
  intros Hr. apply within_spec.
  apply (upto_forall
           (fun r => within (F64.of_float (tenths r)) (inject_Z r / 10) (1 # 10000))
           16666);
    [vm_compute; reflexivity | assumption].
Qed.

Lemma kmh_close (raw : Z) :
  0 <= raw < 2566 ->
  (Qabs (SF2Q (F64.of_float (kmh raw)) - inject_Z raw * (36 # 100)) <= 1 # 10000)%Q.
Proof.
  intros Hr. apply within_spec.
  apply (upto_forall
           (fun r => within (F64.of_float (kmh r)) (inject_Z r * (36 # 100)) (1 # 10000))
           2566);
    [vm_compute; reflexivity | assumption].
Qed.

Lemma temperature_threshold (raw : Z) :
  0 <= raw < 1666 ->
  SFleb (tenths raw) (F32.of_int 60) = (raw <=? 600).
Proof.
  intros Hr. apply eqb_prop.
  apply (upto_forall
           (fun r => eqb (SFleb (tenths r) (F32.of_int 60)) (r <=? 600)) 1666);
    [vm_compute; reflexivity | assumption].
Qed.

Lemma temperature_close (raw : Z) :
  0 <= raw < 1666 ->
  (Qabs (SF2Q (F64.of_float (spec_temperature raw))
         - (if raw <=? 600 then inject_Z raw / 10 else inject_Z raw / 10 - 100))
   <= 1 # 100000)%Q.
Proof.
  intros Hr. apply within_spec.
  apply (upto_forall
           (fun r => within (F64.of_float (spec_temperature r))
                            (if r <=? 600 then inject_Z r / 10
                             else inject_Z r / 10 - 100)
                            (1 # 100000))
           1666);
    [vm_compute; reflexivity | assumption].
Qed.

Lemma degrees_exact (deg : Z) :
  0 <= deg < 1666 ->
  (SF2Q (F64.of_float (F32.of_int deg)) == inject_Z deg)%Q.
Proof.
  intros Hr. apply Qeq_bool_iff.
  apply (upto_forall
           (fun r => Qeq_bool (SF2Q (F64.of_float (F32.of_int r))) (inject_Z r)) 1666);
    [vm_compute; reflexivity | assumption].
Qed.

(** The literals are the correctly rounded decimal constants. *)
Lemma literals_rounded :
  lit_0_1f = F32.div (F32.of_int 1) (F32.of_int 10) /\
  lit_3_6 = F64.div (F64.of_int 36) (F64.of_int 10).
Proof. split; vm_compute; reflexivity. Qed.

(* ================================================================= *)
(** ** Checksum arithmetic *)

Lemma checksum_span_16 (B : nat -> Z) :
  checksum_span B 2 16 =
  ((0x100 - B 2%nat) + ((0x100 - B 3%nat) + ((0x100 - B 4%nat)
   + ((0x100 - B 5%nat) + ((0x100 - B 6%nat) + ((0x100 - B 7%nat)
   + ((0x100 - B 8%nat) + ((0x100 - B 9%nat) + ((0x100 - B 10%nat)
   + ((0x100 - B 11%nat) + ((0x100 - B 12%nat) + ((0x100 - B 13%nat)
   + ((0x100 - B 14%nat) + ((0x100 - B 15%nat) + ((0x100 - B 16%nat)
   + ((0x100 - B 17%nat) + 0)))))))))))))))) mod 256.
Proof. reflexivity. Qed.

(** Two byte strings that agree on indices 2 to 17 have one checksum. *)
Lemma checksum_agree (B B' : nat -> Z) :
  (forall i, (2 <= i <= 17)%nat -> B' i = B i) ->
  checksum_span B' 2 16 = checksum_span B 2 16.
Proof.
  intros H. rewrite !checksum_span_16.
  rewrite !H by lia. reflexivity.
Qed.

(** Two byte strings that differ at exactly one index of 2 to 17 cannot
    both have checksum 0x01. *)
Lemma checksum_single_change (B B' : nat -> Z) (k : nat) :
  (forall i, 0 <= B i < 256) -> (forall i, 0 <= B' i < 256) ->
  (2 <= k <= 17)%nat ->
  (forall i, (2 <= i <= 17)%nat -> i <> k -> B' i = B i) ->
  B' k <> B k ->
  checksum_span B 2 16 = 1 ->
  checksum_span B' 2 16 <> 1.
Proof.
  intros R R' Hk Hsame Hdiff. rewrite !checksum_span_16.
  pose proof (R k) as Rk. pose proof (R' k) as Rk'.
  assert (Hcases : In k (seq 2 16)) by (apply in_seq; lia).
  cbn [seq In] in Hcases.
  repeat (destruct Hcases as [<- | Hcases];
          [rewrite ?(Hsame 2%nat), ?(Hsame 3%nat), ?(Hsame 4%nat), ?(Hsame 5%nat),
             ?(Hsame 6%nat), ?(Hsame 7%nat), ?(Hsame 8%nat), ?(Hsame 9%nat),
             ?(Hsame 10%nat), ?(Hsame 11%nat), ?(Hsame 12%nat), ?(Hsame 13%nat),
             ?(Hsame 14%nat), ?(Hsame 15%nat), ?(Hsame 16%nat), ?(Hsame 17%nat)
             by lia;
           intros H1 H2; apply Hdiff;
           Z.div_mod_to_equations; lia |]).
  destruct Hcases.
Qed.

(* ================================================================= *)
(** ** Framing in the words of the specification *)

Lemma framed_iff (b : bitbuffer_t) :
  framed b <->
  shape_ok b /\
  exists p, first_preamble b p /\ 144 <= row_bits_len b 0 - (p + 32).
Proof.
  split.
  - intros Hf. pose proof (framed_first_preamble b Hf) as Hp.
    destruct Hf as (Hs & _ & Hlen). split; [assumption|].
    exists (payload_pos b - 32). split; [assumption | lia].
  - intros (Hs & p & Hp & Hlen).
    destruct (search_preamble b) as [[_ Hno] | Hfirst]; cbn zeta in *.
    + destruct Hp as [Hp _]. destruct (Hno p Hp).
    + rewrite (first_preamble_unique b _ _ Hp Hfirst) in *.
      destruct Hfirst as [(_ & Hin & _) _].
      unfold framed, payload_pos. split_and!; [assumption | lia | lia].
Qed.

Lemma unframed_cases (b : bitbuffer_t) :
  shape_ok b -> ~ framed b ->
  (forall p, ~ preamble_at b p) \/
  (exists p, first_preamble b p /\ row_bits_len b 0 - (p + 32) < 144).
Proof.
  intros Hs Hnf.
  destruct (search_preamble b) as [[_ Hno] | Hfirst]; cbn zeta in *.
  - now left.
  - right. eexists. split; [exact Hfirst|].
    destruct (Z.lt_ge_cases
                (row_bits_len b 0 - (bitbuffer_search b 0 0 preamble_pattern 32 + 32))
                144) as [Hlt | Hge]; [assumption|].
    exfalso. apply Hnf. apply framed_iff. split; [assumption|].
    eexists. split; [exact Hfirst | assumption].
Qed.

(** The two framing conditions exclude each other. *)
Lemma framing_exclusive (b : bitbuffer_t) :
  (forall p, ~ preamble_at b p) \/
  (exists p, first_preamble b p /\ row_bits_len b 0 - (p + 32) < 144) ->
  (exists q, first_preamble b q /\ 144 <= row_bits_len b 0 - (q + 32)) ->
  False.
Proof.
  intros [Hno | (p & Hp & Hshort)] (q & Hq & Hlong).
  - destruct Hq as [Hq _]. exact (Hno q Hq).
  - rewrite (first_preamble_unique b p q Hp Hq) in Hshort. lia.
Qed.

(** The conditions of the four outcomes exclude one another: a capture
    has one code. *)
Lemma outcome_code_unique (early length : Z) (b : bitbuffer_t) (w w1 w2 : world)
      (c1 c2 : Z) :
  outcome early length b w w1 c1 -> outcome early length b w w2 c2 -> c1 = c2.
Proof.
  unfold outcome.
  intros [(Hs1 & -> & _) | [(Hs1 & Hp1 & -> & _) | [(Hs1 & Hp1 & Hc1 & -> & _)
                                                   | (Hs1 & Hp1 & Hc1 & -> & _)]]]
         [(Hs2 & -> & _) | [(Hs2 & Hp2 & -> & _) | [(Hs2 & Hp2 & Hc2 & -> & _)
                                                   | (Hs2 & Hp2 & Hc2 & -> & _)]]];
    first [ reflexivity
          | contradiction
          | destruct (framing_exclusive b Hp1 Hp2)
          | destruct (framing_exclusive b Hp2 Hp1) ].
Qed.

(** A row that starts with the preamble is synchronised at offset 0. *)
Lemma search_at_start (bits : Z) (bytes : list Z) :
  32 <= bits ->
  match_at bytes preamble_pattern 32 0 = true ->
  bitbuffer_search (one_row bits bytes) 0 0 preamble_pattern 32 = 0.
Proof.
  intros Hbits Hm. unfold bitbuffer_search.
  change (row_bits_len (one_row bits bytes) 0) with bits.
  change (row_bytes (one_row bits bytes) 0) with bytes.
  destruct (Z.to_nat (bits - 0)) as [|n] eqn:Hn; [lia|].
  cbn [search_from]. rewrite Hm.
  replace (0 + 32 <=? bits) with true by (symmetry; apply Z.leb_le; lia).
  reflexivity.
Qed.

(** The fixture row is framed at every accepted bit length that leaves
    144 payload bits, and its payload bytes do not depend on that length. *)
Lemma fixture_framed (n : Z) :
  176 <= n <= 230 ->
  framed (fixture n) /\ forall i, extracted (fixture n) i = extracted (fixture 230) i.
Proof.
  intros Hn.
  assert (Hs : bitbuffer_search (fixture n) 0 0 preamble_pattern 32 = 0)
    by (apply search_at_start; [lia | vm_compute; reflexivity]).
  assert (Hs' : bitbuffer_search (fixture 230) 0 0 preamble_pattern 32 = 0)
    by (apply search_at_start; [lia | vm_compute; reflexivity]).
  split.
  - unfold framed, shape_ok, payload_pos. rewrite Hs.
    change (row_bits_len (fixture n) 0) with n.
    change (num_rows (fixture n)) with 1. lia.
  - intros i. unfold extracted, payload_pos. rewrite Hs, Hs'. reflexivity.
Qed.

(* ================================================================= *)
(** ** Properties of the callback *)

Section Claims.

Variable DECODE_ABORT_EARLY : Z.
Variable DECODE_ABORT_LENGTH : Z.

Local Abbreviation callback :=
  (bresser_6in1_callback DECODE_ABORT_EARLY DECODE_ABORT_LENGTH).

Lemma callback_accepted (decoder : r_device) (b : bitbuffer_t) (w : world) :
  accepted b ->
  callback decoder b w = Some (1, delivered w (record_of b)).
Proof.
  intros [Hf Hc]. rewrite callback_framed, decode_payload by assumption.
  rewrite Hc. change (1 =? 1) with true. cbv iota. unfold record_of. reflexivity.
Qed.

Lemma callback_rejected (decoder : r_device) (b : bitbuffer_t) (w : world) :
  framed b -> checksum_span (extracted b) 2 16 <> 1 ->
  callback decoder b w = Some (0, complained w Diag_parity_wrong).
Proof.
  intros Hf Hc. rewrite callback_framed, decode_payload by assumption.
  apply Z.eqb_neq in Hc. rewrite Hc. reflexivity.
Qed.

Lemma record_of_rain (b : bitbuffer_t) :
  extracted b 12 = 0xff -> record_of b = rain_record (extracted b).
Proof. intros H. unfold record_of. rewrite H. reflexivity. Qed.

Lemma record_of_weather (b : bitbuffer_t) :
  extracted b 12 <> 0xff -> record_of b = weather_record (extracted b).
Proof. intros H. unfold record_of. apply Z.eqb_neq in H. rewrite H. reflexivity. Qed.

(** C1, as amended: the span is the 16 bytes at indices 2 to 17.  A framed
    capture is accepted (return 1, one record delivered) exactly when
    the sum of [0x100 - b] over those bytes, masked to 8 bits, is 0x01, and
    is turned away with 0 and no record exactly when it is not; changing
    one byte of the span of an accepted buffer to another value gives a
    rejected buffer; bytes outside indices 2 to 17 do not affect
    acceptance. *)
Theorem checksum_acceptance_law (decoder : r_device) (b : bitbuffer_t) (w : world) :
  framed b ->
  (checksum_span (extracted b) 2 16 = 1 <->
   callback decoder b w = Some (1, delivered w (record_of b)))
  /\ (checksum_span (extracted b) 2 16 <> 1 <->
      callback decoder b w = Some (0, complained w Diag_parity_wrong))
  /\ (forall (b' : bitbuffer_t) (k : nat),
        framed b' -> (2 <= k <= 17)%nat ->
        (forall i, (2 <= i <= 17)%nat -> i <> k -> extracted b' i = extracted b i) ->
        extracted b' k <> extracted b k ->
        callback decoder b w = Some (1, delivered w (record_of b)) ->
        callback decoder b' w = Some (0, complained w Diag_parity_wrong))
  /\ (forall b' : bitbuffer_t,
        framed b' ->
        (forall i, (2 <= i <= 17)%nat -> extracted b' i = extracted b i) ->
        (callback decoder b' w = Some (1, delivered w (record_of b')) <->
         callback decoder b w = Some (1, delivered w (record_of b)))).
Proof.
  intros Hf.
  assert (Hyes : forall c, framed c ->
            (checksum_span (extracted c) 2 16 = 1 <->
             callback decoder c w = Some (1, delivered w (record_of c)))).
  { intros c Hc. split.
    - intros H. now apply callback_accepted.
    - intros H. destruct (Z.eq_dec (checksum_span (extracted c) 2 16) 1) as [|Hne];
        [assumption|].
      rewrite (callback_rejected decoder c w Hc Hne) in H. discriminate H. }
  split_and!.
  - now apply Hyes.
  - split.
    + now apply callback_rejected.
    + intros H Hc. apply (Hyes b Hf) in Hc. rewrite Hc in H. discriminate H.
  - intros b' k Hf' Hk Hsame Hdiff Hacc. apply callback_rejected; [assumption|].
    apply (checksum_single_change (extracted b) (extracted b') k);
      try assumption; try apply extracted_range.
    now apply Hyes.
  - intros b' Hf' Hsame.
    rewrite <- (Hyes b Hf), <- (Hyes b' Hf').
    now rewrite (checksum_agree (extracted b) (extracted b')).
Qed.

(** C2, as amended: the row made of the preamble and the 26 sample bytes
    has 240 bits and is turned away by the shape guard with no record;
    cut to any length from 176 to 230 bits it is framed, extracted byte
    12 is 0xFF and byte 13 is 0x11, the checksum over bytes 2 to 17 is
    0x95, and the callback returns 0 with no record. *)
Theorem fixture_rejected (decoder : r_device) (w : world) (n : Z) :
  176 <= n <= 230 ->
  (exists w', callback decoder (fixture 240) w = Some (DECODE_ABORT_EARLY, w')
              /\ sink w' = sink w)
  /\ framed (fixture n)
  /\ extracted (fixture n) 12 = 0xff
  /\ extracted (fixture n) 13 = 0x11
  /\ checksum_span (extracted (fixture n)) 2 16 = 0x95
  /\ callback decoder (fixture n) w = Some (0, complained w Diag_parity_wrong).
Proof.
  intros Hn. destruct (fixture_framed n Hn) as [Hf Hbytes].
  assert (Hc : checksum_span (extracted (fixture n)) 2 16 = 0x95).
  { rewrite (checksum_agree (extracted (fixture 230)) (extracted (fixture n)))
      by (intros; apply Hbytes).
    vm_compute. reflexivity. }
  split_and!.
  - destruct (callback_unframed DECODE_ABORT_EARLY DECODE_ABORT_LENGTH decoder
                (fixture 240) w) as (w' & Hsink & Hrun).
    { intros ((_ & _ & Hhi) & _). vm_compute in Hhi. now apply Hhi. }
    exists w'. split; [|assumption]. rewrite Hrun.
    destruct (decide (shape_ok (fixture 240))) as [(_ & _ & Hhi) | _];
      [|reflexivity].
    vm_compute in Hhi. now destruct Hhi.
  - assumption.
  - rewrite Hbytes. vm_compute. reflexivity.
  - rewrite Hbytes. vm_compute. reflexivity.
  - assumption.
  - apply callback_rejected; [assumption|]. rewrite Hc. discriminate.
Qed.

(** C3: with two distinct negative abort codes, every capture gets
    exactly one of four outcomes, whose conditions exclude one another,
    and the callback never faults: the first
    abort code when the capture has not exactly one row of 160 to 230
    bits; the second when the preamble is not in the row or fewer than
    144 bits follow its first occurrence; 0 when the checksum is not
    0x01; 1, after delivering one record, otherwise.  The four codes are
    pairwise distinct and nothing reaches the sink on the first three. *)
Theorem return_taxonomy (decoder : r_device) (b : bitbuffer_t) (w : world) :
  DECODE_ABORT_EARLY < 0 -> DECODE_ABORT_LENGTH < 0 ->
  DECODE_ABORT_EARLY <> DECODE_ABORT_LENGTH ->
  (exists code w',
     callback decoder b w = Some (code, w') /\
     outcome DECODE_ABORT_EARLY DECODE_ABORT_LENGTH b w w' code /\
     forall code'' w'',
       outcome DECODE_ABORT_EARLY DECODE_ABORT_LENGTH b w w'' code'' -> code'' = code)
  /\ DECODE_ABORT_EARLY <> 0 /\ DECODE_ABORT_EARLY <> 1
  /\ DECODE_ABORT_LENGTH <> 0 /\ DECODE_ABORT_LENGTH <> 1.
Proof.
  intros HE HL HEL. split; [|lia].
  cut (exists code w',
         callback decoder b w = Some (code, w') /\
         outcome DECODE_ABORT_EARLY DECODE_ABORT_LENGTH b w w' code).
  { intros (code & w' & Hrun & Hout). exists code, w'.
    split_and!; [assumption | assumption |].
    intros code'' w'' Hout'. exact (outcome_code_unique _ _ _ _ _ _ _ _ Hout' Hout). }
  unfold outcome.
  destruct (decide (framed b)) as [Hf | Hnf].
  - pose proof (proj1 (framed_iff b) Hf) as [Hs Hp].
    destruct (Z.eq_dec (checksum_span (extracted b) 2 16) 1) as [Hc | Hc].
    + exists 1, (delivered w (record_of b)).
      split; [now apply callback_accepted|].
      right; right; right. now split_and!.
    + exists 0, (complained w Diag_parity_wrong).
      split; [now apply callback_rejected|].
      right; right; left. now split_and!.
  - destruct (callback_unframed DECODE_ABORT_EARLY DECODE_ABORT_LENGTH decoder b w Hnf)
      as (w' & Hsink & Hrun).
    eexists _, w'. split; [exact Hrun|].
    destruct (decide (shape_ok b)) as [Hs | Hs].
    + right; left. split_and!; try assumption; try reflexivity.
      now apply unframed_cases.
    + left. now split_and!.
Qed.

(** C4: for an accepted capture, extracted byte 12 alone selects the
    record: at 0xFF its fields are model, wind gust, wind average, wind
    direction, rainfall and integrity marker; at any other value they are
    model, temperature, humidity, wind gust, wind average, wind direction
    and integrity marker. *)
Theorem variant_dispatch (decoder : r_device) (b : bitbuffer_t) (w : world) :
  accepted b ->
  exists data,
    callback decoder b w = Some (1, delivered w data) /\
    (extracted b 12 = 0xff ->
     keys data = ["model"; "wind_gust"; "wind_speed"; "wind_dir_deg"; "rain_mm";
                  "mic"]%string) /\
    (extracted b 12 <> 0xff ->
     keys data = ["model"; "temperature_C"; "humidity"; "wind_gust"; "wind_speed";
                  "wind_dir_deg"; "mic"]%string).
Proof.
  intros Ha. exists (record_of b). split; [now apply callback_accepted|]. split.
  - intros H. now rewrite record_of_rain.
  - intros H. now rewrite record_of_weather.
Qed.

(** C5, as amended: for an accepted weather packet (extracted byte 12
    not 0xFF; a rain packet delivers no temperature) the raw magnitude is
    (high nibble of byte 12) * 100 + (low nibble of byte 12) * 10 + (high
    nibble of byte 13); the reported temperature is [raw * 0.1f] when that is at most
    60.0, which is when raw is at most 600, and [raw * 0.1f - 100] when it
    exceeds 60.0; its exact value is within 0.00001 of raw / 10, and of
    raw / 10 - 100 respectively. *)
Theorem temperature_law (decoder : r_device) (b : bitbuffer_t) (w : world) :
  accepted b -> extracted b 12 <> 0xff ->
  let raw := hi (extracted b 12) * 100 + lo (extracted b 12) * 10
             + hi (extracted b 13) in
  let scaled := tenths raw in
  exists data t,
    callback decoder b w = Some (1, delivered w data) /\
    field "temperature_C" data = Some (DATA_DOUBLE (F64.of_float t)) /\
    t = (if SFleb scaled (F32.of_int 60) then scaled
         else F32.sub scaled (F32.of_int 100)) /\
    SFleb scaled (F32.of_int 60) = (raw <=? 600) /\
    (raw <= 600 ->
     (Qabs (SF2Q (F64.of_float t) - inject_Z raw / 10) <= 1 # 100000)%Q) /\
    (600 < raw ->
     (Qabs (SF2Q (F64.of_float t) - (inject_Z raw / 10 - 100)) <= 1 # 100000)%Q).
Proof.
  intros Ha H12 raw scaled.
  assert (Hraw : 0 <= raw < 1666).
  { pose proof (hi_range _ (extracted_range b 12)).
    pose proof (lo_range (extracted b 12)).
    pose proof (hi_range _ (extracted_range b 13)). unfold raw. lia. }
  exists (record_of b), (spec_temperature raw).
  pose proof (temperature_close raw Hraw) as Hclose.
  split_and!.
  - now apply callback_accepted.
  - now rewrite record_of_weather.
  - reflexivity.
  - now apply temperature_threshold.
  - intros Hle. apply Z.leb_le in Hle. now rewrite Hle in Hclose.
  - intros Hgt. apply Z.leb_gt in Hgt. now rewrite Hgt in Hclose.
Qed.

(** C6: for an accepted packet of either variant the gust raw integer is
    (0xFF - byte 7) * 10 + (0x0F - high nibble of byte 8), the average
    raw integer is (0xFF - byte 9) * 10 + (0x0F - low nibble of byte 8),
    both from the one byte 8, and each reported km/h value is
    [raw * 0.1f * 3.6], whose exact value is within 0.0001 of raw * 0.36;
    raw 100 gives exactly 36.0. *)
Theorem wind_law (decoder : r_device) (b : bitbuffer_t) (w : world) :
  accepted b ->
  let gust_raw := (0xff - extracted b 7) * 10 + (0x0f - hi (extracted b 8)) in
  let wind_raw := (0xff - extracted b 9) * 10 + (0x0f - lo (extracted b 8)) in
  exists data,
    callback decoder b w = Some (1, delivered w data) /\
    field "wind_gust" data = Some (DATA_DOUBLE (F64.of_float (kmh gust_raw))) /\
    field "wind_speed" data = Some (DATA_DOUBLE (F64.of_float (kmh wind_raw))) /\
    (Qabs (SF2Q (F64.of_float (kmh gust_raw)) - inject_Z gust_raw * (36 # 100))
     <= 1 # 10000)%Q /\
    (Qabs (SF2Q (F64.of_float (kmh wind_raw)) - inject_Z wind_raw * (36 # 100))
     <= 1 # 10000)%Q /\
    kmh 100 = F32.of_int 36.
Proof.
  intros Ha gust_raw wind_raw.
  pose proof (extracted_range b 7). pose proof (extracted_range b 9).
  pose proof (hi_range _ (extracted_range b 8)).
  pose proof (lo_range (extracted b 8)).
  exists (record_of b). split_and!.
  - now apply callback_accepted.
  - unfold record_of. destruct (extracted b 12 =? 255); reflexivity.
  - unfold record_of. destruct (extracted b 12 =? 255); reflexivity.
  - apply kmh_close. unfold gust_raw. lia.
  - apply kmh_close. unfold wind_raw. lia.
  - vm_compute. reflexivity.
Qed.

(** C7: for an accepted packet, when extracted byte 12 is 0xFF the
    rainfall is [raw * 0.1f] for raw = (15 - high nibble of byte 13) *
    1000 + (15 - low nibble of byte 13) * 100 + (15 - high nibble of byte
    14) * 10 + (15 - low nibble of byte 14), within 0.0001 of raw / 10;
    when byte 12 is not 0xFF the record has no rainfall. *)
Theorem rainfall_law (decoder : r_device) (b : bitbuffer_t) (w : world) :
  accepted b ->
  let raw := (15 - hi (extracted b 13)) * 1000 + (15 - lo (extracted b 13)) * 100
             + (15 - hi (extracted b 14)) * 10 + (15 - lo (extracted b 14)) in
  exists data,
    callback decoder b w = Some (1, delivered w data) /\
    (extracted b 12 = 0xff ->
     field "rain_mm" data = Some (DATA_DOUBLE (F64.of_float (tenths raw))) /\
     (Qabs (SF2Q (F64.of_float (tenths raw)) - inject_Z raw / 10) <= 1 # 10000)%Q) /\
    (extracted b 12 <> 0xff -> field "rain_mm" data = None).
Proof.
  intros Ha raw.
  pose proof (hi_range _ (extracted_range b 13)).
  pose proof (lo_range (extracted b 13)).
  pose proof (hi_range _ (extracted_range b 14)).
  pose proof (lo_range (extracted b 14)).
  exists (record_of b). split_and!.
  - now apply callback_accepted.
  - intros H12. split; [now rewrite record_of_rain|].
    apply tenths_close. unfold raw. lia.
  - intros H12. now rewrite record_of_weather.
Qed.

(** C8, as amended: for an accepted weather packet the emitted humidity
    is (high nibble of byte 14) * 10 + (low nibble of byte 14); it lies
    between 0 and 165, and is at most 99 when both nibbles are decimal
    digits. *)
Theorem humidity_law (decoder : r_device) (b : bitbuffer_t) (w : world) :
  accepted b -> extracted b 12 <> 0xff ->
  let h := hi (extracted b 14) * 10 + lo (extracted b 14) in
  exists data,
    callback decoder b w = Some (1, delivered w data) /\
    field "humidity" data = Some (DATA_INT h) /\
    0 <= h <= 165 /\
    (hi (extracted b 14) <= 9 -> lo (extracted b 14) <= 9 -> h <= 99).
Proof.
  intros Ha H12 h.
  pose proof (hi_range _ (extracted_range b 14)).
  pose proof (lo_range (extracted b 14)).
  exists (record_of b). split_and!.
  - now apply callback_accepted.
  - now rewrite record_of_weather.
  - unfold h. lia.
  - unfold h. lia.
  - unfold h. lia.
Qed.

(** C9: for an accepted packet of either variant the reported direction
    is the integer (high nibble of byte 10) * 100 + (low nibble of byte
    10) * 10 + (high nibble of byte 11) converted to [float]; its exact
    value is that integer, which ranges up to 1665: nothing is reduced
    modulo 360 or clamped. *)
Theorem wind_direction_law (decoder : r_device) (b : bitbuffer_t) (w : world) :
  accepted b ->
  let deg := hi (extracted b 10) * 100 + lo (extracted b 10) * 10
             + hi (extracted b 11) in
  exists data,
    callback decoder b w = Some (1, delivered w data) /\
    field "wind_dir_deg" data
    = Some (DATA_DOUBLE (F64.of_float (F32.of_int deg))) /\
    (SF2Q (F64.of_float (F32.of_int deg)) == inject_Z deg)%Q.
Proof.
  intros Ha deg.
  pose proof (hi_range _ (extracted_range b 10)).
  pose proof (lo_range (extracted b 10)).
  pose proof (hi_range _ (extracted_range b 11)).
  exists (record_of b). split_and!.
  - now apply callback_accepted.
  - unfold record_of. destruct (extracted b 12 =? 255); reflexivity.
  - apply degrees_exact. unfold deg. lia.
Qed.

End Claims.

(* ================================================================= *)
(** ** Safety of the accesses to [msg] *)

Lemma decode_no_fault (decoder : r_device) (msg : buffer) (w : world) :
  (forall i, (i < 18)%nat -> is_Some (load msg i)) ->
  is_Some (bresser_decode_msg decoder msg w).
Proof.
  intros H.
  rewrite (decode_msg_agree decoder msg
             (map Some (map (fun i => default 0 (load msg i)) (seq 0 18)))).
  - generalize (fun i => default 0 (load msg i)). intros B.
    unfold bresser_decode_msg. rewrite !load_bytes by lia.
    cbv beta iota zeta delta [bind lift ret fprintf_stderr decoder_output_data].
    destruct (B 12%nat =? 255); destruct (negb _); eexists; reflexivity.
  - intros i Hi. rewrite load_bytes by assumption.
    destruct (H i Hi) as [v Hv]. rewrite Hv. reflexivity.
Qed.

Section Safety.

Variable DECODE_ABORT_EARLY : Z.
Variable DECODE_ABORT_LENGTH : Z.

(** C10: the field decoding faults on no buffer whose cells 0 to 17 are
    written, so every index it reads is below 18; for a framed capture
    the extraction writes 18 to 20 bytes from index 0 into the 20 cells
    of [msg] and cells 0 to 17 then hold the payload bytes; and the
    callback faults on no capture at all: no read of an unwritten or
    absent cell and no write past the 20 cells. *)
Theorem buffer_access_safe (decoder : r_device) (b : bitbuffer_t) (w : world) :
  is_Some (bresser_6in1_callback DECODE_ABORT_EARLY DECODE_ABORT_LENGTH decoder b w)
  /\ (forall msg : buffer,
        (forall i, (i < 18)%nat -> is_Some (load msg i)) ->
        is_Some (bresser_decode_msg decoder msg w))
  /\ (framed b ->
      let len := Z.min (row_bits_len b 0 - payload_pos b) (20 * 8) in
      exists msg : buffer,
        bitbuffer_extract_bytes b 0 (payload_pos b) (replicate 20 None) len = Some msg
        /\ length msg = 20%nat
        /\ (18 <= Z.to_nat ((len + 7) / 8) <= 20)%nat
        /\ forall i, (i < 18)%nat -> load msg i = Some (extracted b i)).
Proof.
  split_and!.
  - destruct (decide (framed b)) as [Hf | Hnf].
    + rewrite callback_framed, decode_payload by assumption.
      destruct (_ =? 1); eexists; reflexivity.
    + destruct (callback_unframed DECODE_ABORT_EARLY DECODE_ABORT_LENGTH decoder b w Hnf)
        as (w' & _ & ->).
      eexists; reflexivity.
  - intros msg. apply decode_no_fault.
  - intros (_ & _ & Hlen) len.
    assert (Hn : (18 <= Z.to_nat ((len + 7) / 8) <= 20)%nat).
    { assert (144 <= len <= 160) by (unfold len; lia).
      assert (18 <= (len + 7) / 8) by (apply Z.div_le_lower_bound; lia).
      assert ((len + 7) / 8 < 21) by (apply Z.div_lt_upper_bound; lia).
      lia. }
    destruct (extract_bytes_spec b 0 (payload_pos b) (replicate 20 None) len)
      as (msg & Hrun & Hlength & Hin & _).
    { rewrite length_replicate. lia. }
    exists msg.
    split_and!;
      [ assumption | now rewrite Hlength, length_replicate | lia | lia
      | intros i Hi; apply Hin; lia ].
Qed.

End Safety.

(* ================================================================= *)
(** ** The properties on the sample captures

    The abort codes are instantiated with -2 and -1. *)

(** Bytes 2 to 15 of this framed capture sum to 0x01, and the callback
    turns it away; with byte 16 set to 0 instead of 1 it is accepted. *)
Lemma span14_not_sufficient :
  framed span14_capture
  /\ checksum_span (extracted span14_capture) 2 14 = 1
  /\ bresser_6in1_callback (-2) (-1) quiet span14_capture w0
     = Some (0, complained w0 Diag_parity_wrong)
  /\ bresser_6in1_callback (-2) (-1) quiet span16_capture w0
     = Some (1, delivered w0 (record_of span16_capture)).
Proof. split_and!; by_evaluation. Qed.

Lemma checksum_acceptance_law_witness :
  framed span16_capture
  /\ bresser_6in1_callback (-2) (-1) quiet span16_capture w0
     = Some (1, delivered w0 (record_of span16_capture))
  /\ bresser_6in1_callback (-2) (-1) quiet span14_capture w0
     = Some (0, complained w0 Diag_parity_wrong).
Proof.
  assert (Hf : framed span16_capture) by by_evaluation.
  assert (Hf' : framed span14_capture) by by_evaluation.
  destruct (checksum_acceptance_law (-2) (-1) quiet span16_capture w0 Hf)
    as (Hyes & _ & Hchange & _).
  assert (Hacc : bresser_6in1_callback (-2) (-1) quiet span16_capture w0
                 = Some (1, delivered w0 (record_of span16_capture)))
    by (apply Hyes; vm_compute; reflexivity).
  split_and!; [exact Hf | exact Hacc |].
  apply (Hchange span14_capture 16%nat Hf'); [lia | | | exact Hacc].
  - intros i Hi Hne.
    do 18 (destruct i as [|i]; [first [lia | vm_compute; reflexivity] |]). lia.
  - vm_compute. discriminate.
Defined.

(** The row of the preamble and the 26 sample bytes is turned away by
    the shape guard and nothing is emitted; its extracted byte 12 is 0xFF. *)
Lemma fixture_not_decoded :
  row_bits_len (fixture 240) 0 = 240
  /\ bresser_6in1_callback (-2) (-1) quiet (fixture 240) w0 = Some (-2, w0)
  /\ extracted (fixture 240) 12 = 0xff.
Proof. split_and!; vm_compute; reflexivity. Qed.

Lemma fixture_rejected_witness :
  176 <= 230 <= 230
  /\ extracted (fixture 230) 12 = 0xff
  /\ bresser_6in1_callback (-2) (-1) quiet (fixture 230) w0
     = Some (0, complained w0 Diag_parity_wrong).
Proof.
  assert (Hn : 176 <= 230 <= 230) by lia.
  destruct (fixture_rejected (-2) (-1) quiet w0 230 Hn)
    as (_ & _ & H12 & _ & _ & Hrun).
  split_and!; [lia | lia | exact H12 | exact Hrun].
Defined.

Lemma return_taxonomy_witness :
  (-2 < 0 /\ -1 < 0 /\ -2 <> -1)
  /\ exists code w',
       bresser_6in1_callback (-2) (-1) quiet short_capture w0 = Some (code, w')
       /\ outcome (-2) (-1) short_capture w0 w' code.
Proof.
  assert (HE : -2 < 0) by lia. assert (HL : -1 < 0) by lia.
  assert (HEL : -2 <> -1) by lia.
  split; [split_and!; assumption|].
  destruct (proj1 (return_taxonomy (-2) (-1) quiet short_capture w0 HE HL HEL))
    as (code & w' & Hrun & Hout & _).
  exists code, w'. split; [exact Hrun | exact Hout].
Defined.

Lemma variant_dispatch_witness :
  accepted rain_capture
  /\ exists data,
       bresser_6in1_callback (-2) (-1) quiet rain_capture w0
       = Some (1, delivered w0 data)
       /\ keys data = ["model"; "wind_gust"; "wind_speed"; "wind_dir_deg"; "rain_mm";
                       "mic"]%string.
Proof.
  assert (Ha : accepted rain_capture) by by_evaluation.
  split; [exact Ha|].
  destruct (variant_dispatch (-2) (-1) quiet rain_capture w0 Ha)
    as (data & Hrun & Hrain & _).
  exists data. split; [exact Hrun|]. apply Hrain. vm_compute. reflexivity.
Defined.

(** Raw 312 is reported as the [float] nearest to 31.2, and raw 812
    within 0.00001 of -18.8. *)
Lemma temperature_law_witness :
  ((accepted weather_capture /\ extracted weather_capture 12 <> 0xff)
   /\ exists data,
        bresser_6in1_callback (-2) (-1) quiet weather_capture w0
        = Some (1, delivered w0 data)
        /\ field "temperature_C" data
           = Some (DATA_DOUBLE
                     (F64.of_float (F32.div (F32.of_int 312) (F32.of_int 10)))))
  /\ ((accepted cold_capture /\ extracted cold_capture 12 <> 0xff)
      /\ exists data t,
           bresser_6in1_callback (-2) (-1) quiet cold_capture w0
           = Some (1, delivered w0 data)
           /\ field "temperature_C" data = Some (DATA_DOUBLE (F64.of_float t))
           /\ (Qabs (SF2Q (F64.of_float t) - (inject_Z 812 / 10 - 100))
               <= 1 # 100000)%Q).
Proof.
  assert (Ha : accepted weather_capture) by by_evaluation.
  assert (H12 : extracted weather_capture 12 <> 0xff) by (vm_compute; discriminate).
  assert (Ha' : accepted cold_capture) by by_evaluation.
  assert (H12' : extracted cold_capture 12 <> 0xff) by (vm_compute; discriminate).
  split; (split; [split; assumption|]).
  - destruct (temperature_law (-2) (-1) quiet weather_capture w0 Ha H12)
      as (data & t & Hrun & Hfield & Ht & _).
    exists data. split; [exact Hrun|]. rewrite Hfield, Ht. vm_compute. reflexivity.
  - destruct (temperature_law (-2) (-1) quiet cold_capture w0 Ha' H12')
      as (data & t & Hrun & Hfield & _ & _ & _ & Hcold).
    exists data, t. split_and!; [exact Hrun | exact Hfield |].
    apply Hcold. vm_compute. reflexivity.
Defined.

(** An accepted packet that reports no temperature: the rain capture has
    extracted byte 12 at 0xFF and its record has no temperature. *)
Lemma temperature_absent_in_rain :
  accepted rain_capture
  /\ extracted rain_capture 12 = 0xff
  /\ bresser_6in1_callback (-2) (-1) quiet rain_capture w0
     = Some (1, delivered w0 (record_of rain_capture))
  /\ field "temperature_C" (record_of rain_capture) = None.
Proof. split_and!; by_evaluation. Qed.

(** Gust raw 100 is reported as exactly 36.0 km/h. *)
Lemma wind_law_witness :
  accepted weather_capture
  /\ exists data,
       bresser_6in1_callback (-2) (-1) quiet weather_capture w0
       = Some (1, delivered w0 data)
       /\ field "wind_gust" data = Some (DATA_DOUBLE (F64.of_int 36))
       /\ field "wind_speed" data = Some (DATA_DOUBLE (F64.of_float (kmh 52))).
Proof.
  assert (Ha : accepted weather_capture) by by_evaluation.
  split; [exact Ha|].
  destruct (wind_law (-2) (-1) quiet weather_capture w0 Ha)
    as (data & Hrun & Hgust & Hwind & _).
  exists data. split_and!; [exact Hrun | |].
  - rewrite Hgust. vm_compute. reflexivity.
  - rewrite Hwind. vm_compute. reflexivity.
Defined.

(** The digits 0, 1, 2, 3 are reported as the [float] nearest to 12.3. *)
Lemma rainfall_law_witness :
  accepted rain_capture
  /\ exists data,
       bresser_6in1_callback (-2) (-1) quiet rain_capture w0
       = Some (1, delivered w0 data)
       /\ field "rain_mm" data
          = Some (DATA_DOUBLE
                    (F64.of_float (F32.div (F32.of_int 123) (F32.of_int 10)))).
Proof.
  assert (Ha : accepted rain_capture) by by_evaluation.
  split; [exact Ha|].
  destruct (rainfall_law (-2) (-1) quiet rain_capture w0 Ha)
    as (data & Hrun & Hrain & _).
  exists data. split; [exact Hrun|].
  destruct Hrain as [Hfield _]; [vm_compute; reflexivity|].
  rewrite Hfield. vm_compute. reflexivity.
Defined.

(** An accepted weather packet whose humidity is 165. *)
Lemma humidity_above_99 :
  accepted cold_capture
  /\ bresser_6in1_callback (-2) (-1) quiet cold_capture w0
     = Some (1, delivered w0 (record_of cold_capture))
  /\ field "humidity" (record_of cold_capture) = Some (DATA_INT 165).
Proof. split_and!; by_evaluation. Qed.

Lemma humidity_law_witness :
  (accepted weather_capture /\ extracted weather_capture 12 <> 0xff)
  /\ exists data,
       bresser_6in1_callback (-2) (-1) quiet weather_capture w0
       = Some (1, delivered w0 data)
       /\ field "humidity" data = Some (DATA_INT 80).
Proof.
  assert (Ha : accepted weather_capture) by by_evaluation.
  assert (H12 : extracted weather_capture 12 <> 0xff) by (vm_compute; discriminate).
  split; [split; assumption|].
  destruct (humidity_law (-2) (-1) quiet weather_capture w0 Ha H12)
    as (data & Hrun & Hfield & _).
  exists data. split; [exact Hrun|]. rewrite Hfield. vm_compute. reflexivity.
Defined.

(** Direction digits 9, 9, 9 are reported as 999 degrees. *)
Lemma wind_direction_law_witness :
  accepted cold_capture
  /\ exists data,
       bresser_6in1_callback (-2) (-1) quiet cold_capture w0
       = Some (1, delivered w0 data)
       /\ field "wind_dir_deg" data = Some (DATA_DOUBLE (F64.of_int 999)).
Proof.
  assert (Ha : accepted cold_capture) by by_evaluation.
  split; [exact Ha|].
  destruct (wind_direction_law (-2) (-1) quiet cold_capture w0 Ha)
    as (data & Hrun & Hfield & _).
  exists data. split; [exact Hrun|]. rewrite Hfield. vm_compute. reflexivity.
Defined.

(** The unaligned extraction of the rain capture: 18 bytes are written. *)
Lemma buffer_access_safe_witness :
  framed rain_capture
  /\ exists msg : buffer,
       bitbuffer_extract_bytes rain_capture 0 36 (replicate 20 None) 144 = Some msg
       /\ length msg = 20%nat
       /\ forall i, (i < 18)%nat -> load msg i = Some (extracted rain_capture i).
Proof.
  assert (Hf : framed rain_capture) by by_evaluation.
  split; [exact Hf|].
  destruct (proj2 (proj2 (buffer_access_safe (-2) (-1) quiet rain_capture w0)) Hf)
    as (msg & Hrun & Hlen & _ & Hload).
  exists msg. split_and!; [exact Hrun | exact Hlen | exact Hload].
Defined.

(* ================================================================= *)
(** ** The run of the callback, path by path *)

Section Paths.

Variable DECODE_ABORT_EARLY : Z.
Variable DECODE_ABORT_LENGTH : Z.

Local Abbreviation callback :=
  (bresser_6in1_callback DECODE_ABORT_EARLY DECODE_ABORT_LENGTH).

Lemma shape_test (b : bitbuffer_t) :
  negb (num_rows b =? 1) || (row_bits_len b 0 <? 160) || (row_bits_len b 0 >? 230)
  = negb (bool_decide (shape_ok b)).
Proof.
  unfold shape_ok. rewrite Z.gtb_ltb.
  destruct (Z.eqb_spec (num_rows b) 1), (Z.ltb_spec (row_bits_len b 0) 160),
    (Z.ltb_spec 230 (row_bits_len b 0)); cbn;
    (destruct (bool_decide_reflect
                 (num_rows b = 1 /\ 160 <= row_bits_len b 0 <= 230));
     [first [reflexivity | lia] | first [reflexivity | exfalso; lia]]).
Qed.

(** Line 59 to 66: a capture of the wrong shape. *)
Lemma callback_shape_rejected (decoder : r_device) (b : bitbuffer_t) (w : world) :
  ~ shape_ok b ->
  callback decoder b w =
    Some (DECODE_ABORT_EARLY,
          if verbose decoder >? 1
          then complained w (Diag_out_of_range (row_bits_len b 0)) else w).
Proof.
  intros Hs. unfold bresser_6in1_callback.
  rewrite shape_test, bool_decide_eq_false_2 by assumption. cbn [negb].
  destruct (verbose decoder >? 1); reflexivity.
Qed.

(** Line 70 to 73: no preamble in the row. *)
Lemma callback_no_sync (decoder : r_device) (b : bitbuffer_t) (w : world) :
  shape_ok b -> (forall p, ~ preamble_at b p) ->
  callback decoder b w = Some (DECODE_ABORT_LENGTH, complained w Diag_wrong_start).
Proof.
  intros Hs Hno. unfold bresser_6in1_callback.
  rewrite shape_test, bool_decide_eq_true_2 by assumption. cbn [negb].
  change (Z.of_nat (length preamble_pattern) * 8) with 32.
  destruct (search_preamble b) as [[Hr _] | [Hp _]]; cbn zeta in *.
  - rewrite Hr.
    replace (row_bits_len b 0 >=? row_bits_len b 0) with true
      by (symmetry; rewrite Z.geb_leb; apply Z.leb_refl).
    reflexivity.
  - destruct (Hno _ Hp).
Qed.

(** Line 74 to 82: fewer than 144 bits after the preamble. *)
Lemma callback_too_short (decoder : r_device) (b : bitbuffer_t) (w : world) (p : Z) :
  shape_ok b -> first_preamble b p -> row_bits_len b 0 - (p + 32) < 144 ->
  callback decoder b w =
    Some (DECODE_ABORT_LENGTH,
          if verbose decoder >? 1
          then complained w (Diag_too_short (row_bits_len b 0 - (p + 32))) else w).
Proof.
  intros Hs Hp Hshort. unfold bresser_6in1_callback.
  rewrite shape_test, bool_decide_eq_true_2 by assumption. cbn [negb].
  change (Z.of_nat (length preamble_pattern) * 8) with 32.
  destruct (search_preamble b) as [[_ Hno] | Hfirst]; cbn zeta in *.
  { destruct Hp as [Hp _]. destruct (Hno p Hp). }
  rewrite <- (first_preamble_unique b _ _ Hp Hfirst).
  destruct Hp as [(Hp0 & Hp1 & _) _]. destruct Hs as (_ & Hlo & Hhi).
  replace (p >=? row_bits_len b 0) with false
    by (symmetry; rewrite Z.geb_leb; apply Z.leb_gt; lia).
  replace (u32 (p + 32)) with (p + 32) by (symmetry; apply Z.mod_small; lia).
  replace (u32 (row_bits_len b 0 - (p + 32))) with (row_bits_len b 0 - (p + 32))
    by (symmetry; apply Z.mod_small; lia).
  replace (row_bits_len b 0 - (p + 32) <? 144) with true
    by (symmetry; apply Z.ltb_lt; lia).
  destruct (verbose decoder >? 1); reflexivity.
Qed.

(** Every run appends to the world it starts from: a code, at most one
    record and at most one stderr line, none of which depends on that
    world. *)
Lemma callback_frame (decoder : r_device) (b : bitbuffer_t) :
  exists (code : Z) (recs : list data_t) (lines : list diag),
    (length recs <= 1)%nat /\ (length lines <= 1)%nat /\
    forall w,
      callback decoder b w =
        Some (code, {| sink := sink w ++ recs; stderr := stderr w ++ lines |}).
Proof.
  assert (Hsame : forall w, w = {| sink := sink w ++ []; stderr := stderr w ++ [] |})
    by (intros [s e]; cbn; now rewrite !app_nil_r).
  destruct (decide (framed b)) as [Hf | Hnf].
  - destruct (Z.eq_dec (checksum_span (extracted b) 2 16) 1) as [Hc | Hc].
    + exists 1, [record_of b], []. split_and!; [cbn; lia | cbn; lia |].
      intros w. rewrite (callback_accepted _ _ decoder b w) by now split.
      unfold delivered. now rewrite app_nil_r.
    + exists 0, [], [Diag_parity_wrong]. split_and!; [cbn; lia | cbn; lia |].
      intros w. rewrite (callback_rejected _ _ decoder b w) by assumption.
      unfold complained. now rewrite app_nil_r.
  - destruct (decide (shape_ok b)) as [Hs | Hs].
    + destruct (unframed_cases b Hs Hnf) as [Hno | (p & Hp & Hshort)].
      * exists DECODE_ABORT_LENGTH, [], [Diag_wrong_start].
        split_and!; [cbn; lia | cbn; lia |].
        intros w. rewrite callback_no_sync by assumption.
        unfold complained. now rewrite app_nil_r.
      * exists DECODE_ABORT_LENGTH, [],
          (if verbose decoder >? 1
           then [Diag_too_short (row_bits_len b 0 - (p + 32))] else []).
        split_and!; [cbn; lia | destruct (verbose decoder >? 1); cbn; lia |].
        intros w. rewrite (callback_too_short decoder b w p) by assumption.
        destruct (verbose decoder >? 1);
          [unfold complained; now rewrite app_nil_r | now rewrite <- Hsame].
    + exists DECODE_ABORT_EARLY, [],
        (if verbose decoder >? 1 then [Diag_out_of_range (row_bits_len b 0)] else []).
      split_and!; [cbn; lia | destruct (verbose decoder >? 1); cbn; lia |].
      intros w. rewrite callback_shape_rejected by assumption.
      destruct (verbose decoder >? 1);
        [unfold complained; now rewrite app_nil_r | now rewrite <- Hsame].
Qed.

End Paths.

(* ================================================================= *)
(** ** Diagnostics, verbosity and the world *)

Lemma record_agree (B B' : nat -> Z) :
  (forall i, (7 <= i <= 14)%nat -> B' i = B i) ->
  (if B' 12%nat =? 0xff then rain_record B' else weather_record B')
  = (if B 12%nat =? 0xff then rain_record B else weather_record B).
Proof.
  intros H.
  unfold rain_record, weather_record, spec_temp_raw, spec_humidity, spec_wind_dir,
    spec_gust_raw, spec_wind_raw, spec_rain_raw.
  rewrite !(H 7%nat), !(H 8%nat), !(H 9%nat), !(H 10%nat), !(H 11%nat),
    !(H 12%nat), !(H 13%nat), !(H 14%nat) by lia.
  reflexivity.
Qed.

Section Behaviour.

Variable DECODE_ABORT_EARLY : Z.
Variable DECODE_ABORT_LENGTH : Z.

Local Abbreviation callback :=
  (bresser_6in1_callback DECODE_ABORT_EARLY DECODE_ABORT_LENGTH).

(** X1: what a call writes to stderr.  The line on a row of the wrong
    shape and the line on a short payload are written only above
    verbosity 1; the line on a missing preamble and the line on a wrong
    checksum are written at every verbosity; an accepted capture writes
    nothing.  Apart from these lines a failing call leaves the world as
    it was. *)
Theorem diagnostics_by_outcome (decoder : r_device) (b : bitbuffer_t) (w : world) :
  exists code w',
    callback decoder b w = Some (code, w') /\
    ((~ shape_ok b
      /\ w' = if verbose decoder >? 1
              then complained w (Diag_out_of_range (row_bits_len b 0)) else w)
     \/ (shape_ok b /\ (forall p, ~ preamble_at b p)
         /\ w' = complained w Diag_wrong_start)
     \/ (shape_ok b
         /\ exists p, first_preamble b p /\ row_bits_len b 0 - (p + 32) < 144
                      /\ w' = if verbose decoder >? 1
                              then complained w
                                     (Diag_too_short (row_bits_len b 0 - (p + 32)))
                              else w)
     \/ (framed b /\ checksum_span (extracted b) 2 16 <> 1
         /\ w' = complained w Diag_parity_wrong)
     \/ (framed b /\ checksum_span (extracted b) 2 16 = 1
         /\ stderr w' = stderr w)).
Proof.
  destruct (decide (framed b)) as [Hf | Hnf].
  - destruct (Z.eq_dec (checksum_span (extracted b) 2 16) 1) as [Hc | Hc].
    + eexists _, _. split; [apply callback_accepted; now split|].
      do 4 right. now split_and!.
    + eexists _, _. split; [now apply callback_rejected|].
      do 3 right. left. now split_and!.
  - destruct (decide (shape_ok b)) as [Hs | Hs].
    + destruct (unframed_cases b Hs Hnf) as [Hno | (p & Hp & Hshort)].
      * eexists _, _. split; [now apply callback_no_sync|].
        right; left. now split_and!.
      * eexists _, _. split; [now apply (callback_too_short _ _ decoder b w p)|].
        do 2 right. left. split; [assumption|]. exists p. now split_and!.
    + eexists _, _. split; [now apply callback_shape_rejected|].
      left. now split.
Qed.

(** X2: the verbosity of the decoder changes neither the code returned
    nor what reaches the sink. *)
Theorem verbosity_independent (decoder decoder' : r_device) (b : bitbuffer_t)
        (w : world) :
  observable (callback decoder b w) = observable (callback decoder' b w).
Proof.
  destruct (decide (framed b)) as [Hf | Hnf].
  - now rewrite !callback_framed, !decode_payload by assumption.
  - destruct (decide (shape_ok b)) as [Hs | Hs].
    + destruct (unframed_cases b Hs Hnf) as [Hno | (p & Hp & Hshort)].
      * now rewrite !callback_no_sync by assumption.
      * rewrite !(callback_too_short _ _ _ b w p) by assumption.
        destruct (verbose decoder >? 1), (verbose decoder' >? 1); reflexivity.
    + rewrite !callback_shape_rejected by assumption.
      destruct (verbose decoder >? 1), (verbose decoder' >? 1); reflexivity.
Qed.

(** X3: the callback keeps no state.  What a call on the empty world
    returns and leaves behind is what it returns and appends on any
    world, at most one record each time; two calls in sequence append
    the records and lines of the first, then those of the second. *)
Theorem callback_stateless (decoder : r_device) (b1 b2 : bitbuffer_t) (w : world)
        (c1 c2 : Z) (wa wb : world) :
  callback decoder b1 w0 = Some (c1, wa) ->
  callback decoder b2 w0 = Some (c2, wb) ->
  (length (sink wa) <= 1)%nat
  /\ callback decoder b1 w
     = Some (c1, {| sink := sink w ++ sink wa; stderr := stderr w ++ stderr wa |})
  /\ (do x <- callback decoder b1; do y <- callback decoder b2; ret (x, y)) w
     = Some ((c1, c2),
             {| sink := sink w ++ sink wa ++ sink wb;
                stderr := stderr w ++ stderr wa ++ stderr wb |}).
Proof.
  destruct (callback_frame DECODE_ABORT_EARLY DECODE_ABORT_LENGTH decoder b1)
    as (k1 & r1 & l1 & Hr1 & _ & H1).
  destruct (callback_frame DECODE_ABORT_EARLY DECODE_ABORT_LENGTH decoder b2)
    as (k2 & r2 & l2 & _ & _ & H2).
  rewrite (H1 w0), (H2 w0). cbn [sink stderr w0 app].
  intros [= <- <-] [= <- <-]. cbn [sink stderr].
  split_and!; [assumption | apply H1 |].
  unfold bind at 1. rewrite H1. unfold bind at 1. rewrite H2.
  cbn [sink stderr]. unfold ret. now rewrite <- !app_assoc.
Qed.

(** X4: the result is a function of extracted bytes 2 to 17.  Two framed
    captures that agree on those bytes give the same code, record and
    stderr lines, whatever their bytes 0 and 1, their bytes from 18 on,
    their row lengths and the offsets of their preambles. *)
Theorem result_depends_on_span (decoder : r_device) (b b' : bitbuffer_t) (w : world) :
  framed b -> framed b' ->
  (forall i, (2 <= i <= 17)%nat -> extracted b' i = extracted b i) ->
  callback decoder b' w = callback decoder b w.
Proof.
  intros Hf Hf' Hsame.
  rewrite !callback_framed, !decode_payload by assumption.
  rewrite (checksum_agree (extracted b) (extracted b')) by assumption.
  rewrite (record_agree (extracted b) (extracted b'))
    by (intros i Hi; apply Hsame; lia).
  reflexivity.
Qed.

(** X5: the record is a function of extracted bytes 7 to 14.  Two
    accepted captures that agree on those bytes deliver the same record;
    bytes 2 to 6 and 15 to 17 only take part in the checksum. *)
Theorem record_depends_on_fields (decoder : r_device) (b b' : bitbuffer_t)
        (w : world) :
  accepted b -> accepted b' ->
  (forall i, (7 <= i <= 14)%nat -> extracted b' i = extracted b i) ->
  exists data,
    callback decoder b w = Some (1, delivered w data)
    /\ callback decoder b' w = Some (1, delivered w data).
Proof.
  intros Ha Ha' Hsame. exists (record_of b).
  split; [now apply callback_accepted|].
  rewrite (callback_accepted _ _ decoder b' w Ha'). unfold record_of.
  now rewrite (record_agree (extracted b) (extracted b')).
Qed.

(** X6: every key of a delivered record is one of the declared
    [output_fields], no key occurs twice, and the declared key "id" is
    never delivered. *)
Theorem emitted_keys_declared (decoder : r_device) (b : bitbuffer_t) (w : world) :
  accepted b ->
  exists data,
    callback decoder b w = Some (1, delivered w data)
    /\ (forall k, In k (keys data) -> In k output_fields)
    /\ NoDup (keys data)
    /\ ~ In "id"%string (keys data).
Proof.
  intros Ha. exists (record_of b). split; [now apply callback_accepted|].
  unfold record_of.
  destruct (extracted b 12 =? 255); cbn [keys rain_record weather_record map key
                                          mk_field mk_field_fmt output_fields].
  - split_and!.
    + intros k Hk. cbn [In] in *.
      intuition subst; repeat (first [left; reflexivity | right]).
    + apply NoDup_ListNoDup. repeat constructor; cbn [In]; intuition discriminate.
    + cbn [In]. intuition discriminate.
  - split_and!.
    + intros k Hk. cbn [In] in *.
      intuition subst; repeat (first [left; reflexivity | right]).
    + apply NoDup_ListNoDup. repeat constructor; cbn [In]; intuition discriminate.
    + cbn [In]. intuition discriminate.
Qed.

End Behaviour.

(* ================================================================= *)
(** ** The checksum as a sum of bytes *)

Lemma span_sum_16 (B : nat -> Z) :
  span_sum B =
  B 2%nat + (B 3%nat + (B 4%nat + (B 5%nat + (B 6%nat + (B 7%nat + (B 8%nat
  + (B 9%nat + (B 10%nat + (B 11%nat + (B 12%nat + (B 13%nat + (B 14%nat
  + (B 15%nat + (B 16%nat + (B 17%nat + 0))))))))))))))).
Proof. reflexivity. Qed.

Lemma checksum_iff_sum (B : nat -> Z) :
  checksum_span B 2 16 = 1 <-> span_sum B mod 256 = 0xff.
Proof.
  rewrite checksum_span_16, span_sum_16.
  split; intros H; Z.div_mod_to_equations; lia.
Qed.

Lemma span_sum_ext (B B' : nat -> Z) :
  (forall i, (2 <= i <= 17)%nat -> B' i = B i) -> span_sum B' = span_sum B.
Proof. intros H. rewrite !span_sum_16, !H by lia. reflexivity. Qed.

Lemma span_sum_set_byte (B : nat -> Z) (k : nat) (v : Z) :
  (2 <= k <= 17)%nat -> span_sum (set_byte B k v) = span_sum B + (v - B k).
Proof.
  intros Hk. assert (Hcases : In k (seq 2 16)) by (apply in_seq; lia).
  cbn [seq In] in Hcases. rewrite !span_sum_16. unfold set_byte.
  repeat (destruct Hcases as [<- | Hcases]; [cbn [Nat.eqb]; lia |]).
  destruct Hcases.
Qed.

Lemma set_byte_range (B : nat -> Z) (k : nat) (v : Z) :
  (forall i, 0 <= B i < 256) -> 0 <= v < 256 ->
  forall i, 0 <= set_byte B k v i < 256.
Proof. intros R Hv i. unfold set_byte. destruct (Nat.eqb i k); [assumption | apply R]. Qed.

Section Checksum.

Variable DECODE_ABORT_EARLY : Z.
Variable DECODE_ABORT_LENGTH : Z.

Local Abbreviation callback :=
  (bresser_6in1_callback DECODE_ABORT_EARLY DECODE_ABORT_LENGTH).

(** X7: a framed capture is accepted exactly when its extracted bytes 2
    to 17 add up to 0xFF modulo 256; so a capture whose sixteen bytes
    all have one value, all 0x00 or all 0xFF among them, is always turned
    away with 0. *)
Theorem checksum_is_byte_sum (decoder : r_device) (b : bitbuffer_t) (w : world) :
  framed b ->
  (callback decoder b w = Some (1, delivered w (record_of b))
   <-> span_sum (extracted b) mod 256 = 0xff)
  /\ ((forall i, (2 <= i <= 17)%nat -> extracted b i = extracted b 2) ->
      callback decoder b w = Some (0, complained w Diag_parity_wrong)).
Proof.
  intros Hf. split.
  - rewrite <- checksum_iff_sum. split.
    + intros Hrun.
      destruct (Z.eq_dec (checksum_span (extracted b) 2 16) 1) as [|Hne];
        [assumption|].
      rewrite (callback_rejected _ _ decoder b w Hf Hne) in Hrun. discriminate Hrun.
    + intros Hc. apply callback_accepted. now split.
  - intros Hall. apply callback_rejected; [assumption|].
    rewrite checksum_iff_sum, span_sum_16.
    rewrite !(Hall 3%nat), !(Hall 4%nat), !(Hall 5%nat), !(Hall 6%nat),
      !(Hall 7%nat), !(Hall 8%nat), !(Hall 9%nat), !(Hall 10%nat), !(Hall 11%nat),
      !(Hall 12%nat), !(Hall 13%nat), !(Hall 14%nat), !(Hall 15%nat),
      !(Hall 16%nat), !(Hall 17%nat) by lia.
    intros H. Z.div_mod_to_equations. lia.
Qed.

(** X8: the checksum does not see the order of the bytes.  If the
    extracted bytes 2 to 17 of one framed capture are those of another
    with two of them exchanged, both captures get the same code. *)
Theorem checksum_order_insensitive (decoder : r_device) (b b' : bitbuffer_t)
        (w : world) (i j : nat) :
  framed b -> framed b' ->
  (2 <= i <= 17)%nat -> (2 <= j <= 17)%nat ->
  extracted b' i = extracted b j -> extracted b' j = extracted b i ->
  (forall k, (2 <= k <= 17)%nat -> k <> i -> k <> j -> extracted b' k = extracted b k) ->
  option_map fst (callback decoder b' w) = option_map fst (callback decoder b w).
Proof.
  intros Hf Hf' Hi Hj Hij Hji Hrest.
  assert (Hsum : span_sum (extracted b') = span_sum (extracted b)).
  { rewrite (span_sum_ext
               (set_byte (set_byte (extracted b) i (extracted b j)) j (extracted b i))
               (extracted b')).
    - rewrite !span_sum_set_byte by assumption. unfold set_byte.
      destruct (Nat.eqb_spec j i) as [-> | Hne]; lia.
    - intros k Hk. unfold set_byte.
      destruct (Nat.eqb_spec k j) as [-> | Hkj]; [assumption|].
      destruct (Nat.eqb_spec k i) as [-> | Hki]; [assumption|].
      now apply Hrest. }
  rewrite !callback_framed, !decode_payload by assumption.
  destruct (Z.eq_dec (checksum_span (extracted b) 2 16) 1) as [Hc | Hc].
  - assert (Hc' : checksum_span (extracted b') 2 16 = 1)
      by (apply checksum_iff_sum; rewrite Hsum; now apply checksum_iff_sum).
    rewrite Hc, Hc'. reflexivity.
  - assert (Hc' : checksum_span (extracted b') 2 16 <> 1)
      by (intros H; apply Hc, checksum_iff_sum; rewrite <- Hsum;
          now apply checksum_iff_sum).
    apply Z.eqb_neq in Hc, Hc'. rewrite Hc, Hc'. reflexivity.
Qed.

(** X9: any one byte of the span completes the others.  For a buffer of
    18 bytes and an index from 2 to 17 there is exactly one byte value
    that, stored at that index, makes the field decoding accept the
    buffer. *)
Theorem checksum_completion (decoder : r_device) (B : nat -> Z) (k : nat) (w : world) :
  (forall i, 0 <= B i < 256) -> (2 <= k <= 17)%nat ->
  exists v,
    (0 <= v < 256
     /\ option_map fst
          (bresser_decode_msg decoder (map Some (map (set_byte B k v) (seq 0 18))) w)
        = Some 1)
    /\ forall v',
         0 <= v' < 256 ->
         option_map fst
           (bresser_decode_msg decoder (map Some (map (set_byte B k v') (seq 0 18))) w)
         = Some 1 ->
         v' = v.
Proof.
  intros R Hk.
  assert (Hrun : forall v, 0 <= v < 256 ->
            (option_map fst
               (bresser_decode_msg decoder
                  (map Some (map (set_byte B k v) (seq 0 18))) w) = Some 1
             <-> (span_sum B + (v - B k)) mod 256 = 0xff)).
  { intros v Hv. rewrite decode_bytes by now apply set_byte_range.
    rewrite <- span_sum_set_byte by assumption. rewrite <- checksum_iff_sum.
    destruct (Z.eqb_spec (checksum_span (set_byte B k v) 2 16) 1) as [Hc | Hc];
      cbn [option_map fst]; split; intros H; try assumption; try reflexivity.
    - discriminate H.
    - contradiction. }
  exists ((0xff - (span_sum B - B k)) mod 256). split.
  - assert (Hv : 0 <= (0xff - (span_sum B - B k)) mod 256 < 256)
      by (apply Z.mod_pos_bound; lia).
    split; [assumption|]. apply Hrun; [assumption|].
    Z.div_mod_to_equations. lia.
  - intros v' Hv' Hacc. apply Hrun in Hacc; [|assumption].
    Z.div_mod_to_equations. lia.
Qed.

End Checksum.

(* ================================================================= *)
(** ** Row lengths and the extraction request *)

Section Lengths.

Variable DECODE_ABORT_EARLY : Z.
Variable DECODE_ABORT_LENGTH : Z.

Local Abbreviation callback :=
  (bresser_6in1_callback DECODE_ABORT_EARLY DECODE_ABORT_LENGTH).

(** X10: the shape guard lets rows of 160 to 175 bits through, but none
    of them can hold the preamble and 144 payload bits: every such row
    gets the second abort code and no record. *)
Theorem short_rows_rejected (decoder : r_device) (b : bitbuffer_t) (w : world) :
  shape_ok b -> row_bits_len b 0 < 176 ->
  exists w',
    callback decoder b w = Some (DECODE_ABORT_LENGTH, w') /\ sink w' = sink w.
Proof.
  intros Hs Hlen.
  assert (Hnf : ~ framed b).
  { intros Hf. pose proof (framed_first_preamble b Hf) as [(Hp0 & _) _].
    destruct Hf as (_ & _ & H144). lia. }
  destruct (callback_unframed DECODE_ABORT_EARLY DECODE_ABORT_LENGTH decoder b w Hnf)
    as (w' & Hsink & Hrun).
  exists w'. split; [|assumption].
  rewrite Hrun. destruct (decide (shape_ok b)); [reflexivity | contradiction].
Qed.


End Lengths.

(* ================================================================= *)
(** ** The ranges of the delivered values *)

Lemma between_spec (lo hi : Q) (x : spec_float) :
  between lo hi x = true -> finite x = true /\ (lo <= SF2Q x <= hi)%Q.
Proof.
  unfold between. rewrite !andb_true_iff, !Qle_bool_iff. tauto.
Qed.

Lemma below_spec (x y : spec_float) : below x y = true <-> (SF2Q x < SF2Q y)%Q.
Proof.
  unfold below. rewrite negb_true_iff, <- not_true_iff_false, Qle_bool_iff.
  split; [apply Qnot_le_lt | apply Qlt_not_le].
Qed.

Lemma kmh_between (raw : Z) :
  0 <= raw < 2566 -> between 0 924 (F64.of_float (kmh raw)) = true.
Proof.
  apply (upto_forall (fun r => between 0 924 (F64.of_float (kmh r))) 2566).
  vm_compute. reflexivity.
Qed.

Lemma tenths_between (raw : Z) :
  0 <= raw < 16666 -> between 0 1667 (F64.of_float (tenths raw)) = true.
Proof.
  apply (upto_forall (fun r => between 0 1667 (F64.of_float (tenths r))) 16666).
  vm_compute. reflexivity.
Qed.

Lemma degrees_between (deg : Z) :
  0 <= deg < 1666 -> between 0 1665 (F64.of_float (F32.of_int deg)) = true.
Proof.
  apply (upto_forall (fun r => between 0 1665 (F64.of_float (F32.of_int r))) 1666).
  vm_compute. reflexivity.
Qed.

Lemma temperature_between (raw : Z) :
  0 <= raw < 1656 ->
  between (-40) 66 (F64.of_float (spec_temperature raw)) = true
  /\ below (F64.of_float (spec_temperature raw)) F32.zero
     = (600 <? raw) && (raw <? 1000).
Proof.
  intros Hr.
  assert (H : between (-40) 66 (F64.of_float (spec_temperature raw))
              && eqb (below (F64.of_float (spec_temperature raw)) F32.zero)
                     ((600 <? raw) && (raw <? 1000)) = true).
  { apply (upto_forall
             (fun r => between (-40) 66 (F64.of_float (spec_temperature r))
                       && eqb (below (F64.of_float (spec_temperature r)) F32.zero)
                              ((600 <? r) && (r <? 1000))) 1656);
      [vm_compute; reflexivity | assumption]. }
  apply andb_true_iff in H as [H1 H2]. split; [assumption | now apply eqb_prop].
Qed.

Lemma weather_temp_raw_range (B : nat -> Z) :
  (forall i, 0 <= B i < 256) -> B 12%nat <> 0xff -> 0 <= spec_temp_raw B < 1656.
Proof.
  intros R H12. pose proof (R 12%nat). pose proof (hi_range _ (R 13%nat)).
  unfold spec_temp_raw, hi, lo in *. Z.div_mod_to_equations. lia.
Qed.

Lemma increasing_by_steps (f : Z -> Q) (n : Z) :
  (forall r, 0 <= r -> r + 1 < n -> (f r < f (r + 1)%Z)%Q) ->
  forall r1 r2, 0 <= r1 -> r1 < r2 -> r2 < n -> (f r1 < f r2)%Q.
Proof.
  intros Hstep r1 r2 H0 H12 Hn.
  replace r2 with (r1 + 1 + Z.of_nat (Z.to_nat (r2 - r1 - 1))) in * by lia.
  induction (Z.to_nat (r2 - r1 - 1)) as [|k IH].
  - replace (r1 + 1 + Z.of_nat 0) with (r1 + 1) by lia. apply Hstep; lia.
  - apply Qlt_trans with (f (r1 + 1 + Z.of_nat k)); [apply IH; lia|].
    replace (r1 + 1 + Z.of_nat (S k)) with (r1 + 1 + Z.of_nat k + 1) by lia.
    apply Hstep; lia.
Qed.

Lemma kmh_increasing (r1 r2 : Z) :
  0 <= r1 -> r1 < r2 -> r2 < 2566 ->
  (SF2Q (F64.of_float (kmh r1)) < SF2Q (F64.of_float (kmh r2)))%Q.
Proof.
  apply (increasing_by_steps (fun r => SF2Q (F64.of_float (kmh r)))).
  intros r Hr Hn. apply below_spec.
  apply (upto_forall
           (fun r => below (F64.of_float (kmh r)) (F64.of_float (kmh (r + 1)))) 2565);
    [vm_compute; reflexivity | lia].
Qed.

Lemma tenths_increasing (r1 r2 : Z) :
  0 <= r1 -> r1 < r2 -> r2 < 16666 ->
  (SF2Q (F64.of_float (tenths r1)) < SF2Q (F64.of_float (tenths r2)))%Q.
Proof.
  apply (increasing_by_steps (fun r => SF2Q (F64.of_float (tenths r)))).
  intros r Hr Hn. apply below_spec.
  apply (upto_forall
           (fun r => below (F64.of_float (tenths r)) (F64.of_float (tenths (r + 1))))
           16665);
    [vm_compute; reflexivity | lia].
Qed.

Lemma wind_raw_ranges (B : nat -> Z) :
  (forall i, 0 <= B i < 256) ->
  0 <= spec_gust_raw B < 2566 /\ 0 <= spec_wind_raw B < 2566
  /\ 0 <= spec_wind_dir B < 1666 /\ 0 <= spec_rain_raw B < 16666.
Proof.
  intros R.
  pose proof (R 7%nat). pose proof (R 9%nat).
  pose proof (hi_range _ (R 8%nat)). pose proof (lo_range (B 8%nat)).
  pose proof (hi_range _ (R 10%nat)). pose proof (lo_range (B 10%nat)).
  pose proof (hi_range _ (R 11%nat)).
  pose proof (hi_range _ (R 13%nat)). pose proof (lo_range (B 13%nat)).
  pose proof (hi_range _ (R 14%nat)). pose proof (lo_range (B 14%nat)).
  unfold spec_gust_raw, spec_wind_raw, spec_wind_dir, spec_rain_raw. lia.
Qed.

Section Values.

Variable DECODE_ABORT_EARLY : Z.
Variable DECODE_ABORT_LENGTH : Z.

Local Abbreviation callback :=
  (bresser_6in1_callback DECODE_ABORT_EARLY DECODE_ABORT_LENGTH).

(** X12: every number of a delivered record is finite and bounded, as no
    nibble is checked to be a decimal digit: both wind values lie in 0 to
    924 km/h, the direction in 0 to 1665, the rainfall in 0 to 1667 mm and
    the temperature in -40 to 66; the temperature is below zero exactly
    when its raw magnitude is from 601 to 999. *)
Theorem delivered_values_bounded (decoder : r_device) (b : bitbuffer_t) (w : world) :
  accepted b ->
  let raw := hi (extracted b 12) * 100 + lo (extracted b 12) * 10
             + hi (extracted b 13) in
  exists data gust avg dir,
    callback decoder b w = Some (1, delivered w data)
    /\ field "wind_gust" data = Some (DATA_DOUBLE gust)
    /\ finite gust = true /\ (0 <= SF2Q gust <= 924)%Q
    /\ field "wind_speed" data = Some (DATA_DOUBLE avg)
    /\ finite avg = true /\ (0 <= SF2Q avg <= 924)%Q
    /\ field "wind_dir_deg" data = Some (DATA_DOUBLE dir)
    /\ finite dir = true /\ (0 <= SF2Q dir <= 1665)%Q
    /\ (extracted b 12 = 0xff ->
        exists rain,
          field "rain_mm" data = Some (DATA_DOUBLE rain)
          /\ finite rain = true /\ (0 <= SF2Q rain <= 1667)%Q)
    /\ (extracted b 12 <> 0xff ->
        exists t,
          field "temperature_C" data = Some (DATA_DOUBLE t)
          /\ finite t = true /\ (-40 <= SF2Q t <= 66)%Q
          /\ ((SF2Q t < 0)%Q <-> 601 <= raw <= 999)).
Proof.
  intros Ha raw.
  destruct (wind_raw_ranges (extracted b) (extracted_range b))
    as (Hg & Hs & Hd & Hr).
  destruct (between_spec _ _ _ (kmh_between _ Hg)) as [Fg Bg].
  destruct (between_spec _ _ _ (kmh_between _ Hs)) as [Fs Bs].
  destruct (between_spec _ _ _ (degrees_between _ Hd)) as [Fd Bd].
  exists (record_of b). eexists _, _, _.
  split; [now apply callback_accepted|].
  split; [unfold record_of; destruct (extracted b 12 =? 255); reflexivity|].
  split; [exact Fg|]. split; [exact Bg|].
  split; [unfold record_of; destruct (extracted b 12 =? 255); reflexivity|].
  split; [exact Fs|]. split; [exact Bs|].
  split; [unfold record_of; destruct (extracted b 12 =? 255); reflexivity|].
  split; [exact Fd|]. split; [exact Bd|].
  split.
  - intros H12. rewrite record_of_rain by assumption.
    destruct (between_spec _ _ _ (tenths_between _ Hr)) as [Fr Br].
    eexists. split; [reflexivity|]. split; assumption.
  - intros H12. rewrite record_of_weather by assumption.
    pose proof (weather_temp_raw_range (extracted b) (extracted_range b) H12) as Ht.
    destruct (temperature_between _ Ht) as [Hb Hneg].
    destruct (between_spec _ _ _ Hb) as [Ft Bt].
    eexists. split; [reflexivity|]. split; [exact Ft|]. split; [exact Bt|].
    change (SF2Q (F64.of_float (spec_temperature (spec_temp_raw (extracted b)))) < 0)%Q
      with (SF2Q (F64.of_float (spec_temperature (spec_temp_raw (extracted b))))
            < SF2Q F32.zero)%Q.
    rewrite <- below_spec, Hneg, andb_true_iff, Z.ltb_lt, Z.ltb_lt.
    unfold raw, spec_temp_raw. lia.
Qed.

(** X13: the scaling in [float] keeps the order of the raw integers, so
    no two raw values are delivered as one number: of two accepted
    captures the one with the larger gust, average or rain raw integer
    delivers the strictly larger wind gust, wind speed or rainfall. *)
Theorem scaling_strictly_increasing (decoder : r_device) (b b' : bitbuffer_t)
        (w : world) :
  accepted b -> accepted b' ->
  exists data data' gust gust' avg avg',
    callback decoder b w = Some (1, delivered w data)
    /\ callback decoder b' w = Some (1, delivered w data')
    /\ field "wind_gust" data = Some (DATA_DOUBLE gust)
    /\ field "wind_gust" data' = Some (DATA_DOUBLE gust')
    /\ field "wind_speed" data = Some (DATA_DOUBLE avg)
    /\ field "wind_speed" data' = Some (DATA_DOUBLE avg')
    /\ (spec_gust_raw (extracted b) < spec_gust_raw (extracted b') ->
        (SF2Q gust < SF2Q gust')%Q)
    /\ (spec_wind_raw (extracted b) < spec_wind_raw (extracted b') ->
        (SF2Q avg < SF2Q avg')%Q)
    /\ (extracted b 12 = 0xff -> extracted b' 12 = 0xff ->
        spec_rain_raw (extracted b) < spec_rain_raw (extracted b') ->
        exists rain rain',
          field "rain_mm" data = Some (DATA_DOUBLE rain)
          /\ field "rain_mm" data' = Some (DATA_DOUBLE rain')
          /\ (SF2Q rain < SF2Q rain')%Q).
Proof.
  intros Ha Ha'.
  destruct (wind_raw_ranges (extracted b) (extracted_range b))
    as (Hg & Hs & _ & Hr).
  destruct (wind_raw_ranges (extracted b') (extracted_range b'))
    as (Hg' & Hs' & _ & Hr').
  exists (record_of b), (record_of b'). eexists _, _, _, _.
  split; [now apply callback_accepted|].
  split; [now apply callback_accepted|].
  split; [unfold record_of; destruct (extracted b 12 =? 255); reflexivity|].
  split; [unfold record_of; destruct (extracted b' 12 =? 255); reflexivity|].
  split; [unfold record_of; destruct (extracted b 12 =? 255); reflexivity|].
  split; [unfold record_of; destruct (extracted b' 12 =? 255); reflexivity|].
  split; [intros Hlt; apply kmh_increasing; lia|].
  split; [intros Hlt; apply kmh_increasing; lia|].
  intros H12 H12' Hlt. rewrite !record_of_rain by assumption.
  eexists _, _. split; [reflexivity|]. split; [reflexivity|].
  apply tenths_increasing; lia.
Qed.

End Values.

(* ================================================================= *)
(** ** The further properties on the sample captures *)

(** A weather packet, then a packet with a wrong checksum, on a world
    that is not empty. *)
Lemma callback_stateless_witness :
  (bresser_6in1_callback (-2) (-1) quiet weather_capture w0
   = Some (1, delivered w0 (record_of weather_capture))
   /\ bresser_6in1_callback (-2) (-1) quiet span14_capture w0
      = Some (0, complained w0 Diag_parity_wrong))
  /\ (do x <- bresser_6in1_callback (-2) (-1) quiet weather_capture;
      do y <- bresser_6in1_callback (-2) (-1) quiet span14_capture;
      ret (x, y)) w1
     = Some ((1, 0),
             {| sink := sink w1 ++ [record_of weather_capture];
                stderr := stderr w1 ++ [Diag_parity_wrong] |}).
Proof.
  assert (H1 : bresser_6in1_callback (-2) (-1) quiet weather_capture w0
               = Some (1, delivered w0 (record_of weather_capture)))
    by (vm_compute; reflexivity).
  assert (H2 : bresser_6in1_callback (-2) (-1) quiet span14_capture w0
               = Some (0, complained w0 Diag_parity_wrong))
    by (vm_compute; reflexivity).
  split; [split; assumption|].
  exact (proj2 (proj2 (callback_stateless (-2) (-1) quiet weather_capture
                         span14_capture w1 1 0 _ _ H1 H2))).
Defined.

(** The weather packet behind another preamble, with other bytes 0 and 1
    and a longer row. *)
Lemma result_depends_on_span_witness :
  (framed weather_capture /\ framed weather_alt_capture
   /\ extracted weather_alt_capture 0 <> extracted weather_capture 0
   /\ payload_pos weather_alt_capture <> payload_pos weather_capture)
  /\ bresser_6in1_callback (-2) (-1) quiet weather_alt_capture w0
     = bresser_6in1_callback (-2) (-1) quiet weather_capture w0.
Proof.
  assert (Hf : framed weather_capture) by by_evaluation.
  assert (Hf' : framed weather_alt_capture) by by_evaluation.
  split; [split_and!; [assumption | assumption | |]; vm_compute; discriminate|].
  apply (result_depends_on_span (-2) (-1) quiet weather_capture weather_alt_capture
           w0 Hf Hf').
  same_bytes.
Defined.

Lemma record_depends_on_fields_witness :
  (accepted weather_capture /\ accepted refit_capture
   /\ extracted refit_capture 15 <> extracted weather_capture 15)
  /\ exists data,
       bresser_6in1_callback (-2) (-1) quiet weather_capture w0
       = Some (1, delivered w0 data)
       /\ bresser_6in1_callback (-2) (-1) quiet refit_capture w0
          = Some (1, delivered w0 data).
Proof.
  assert (Ha : accepted weather_capture) by by_evaluation.
  assert (Ha' : accepted refit_capture) by by_evaluation.
  split; [split_and!; [assumption | assumption |]; vm_compute; discriminate|].
  apply (record_depends_on_fields (-2) (-1) quiet weather_capture refit_capture
           w0 Ha Ha').
  same_bytes.
Defined.

Lemma emitted_keys_declared_witness :
  accepted rain_capture
  /\ exists data,
       bresser_6in1_callback (-2) (-1) quiet rain_capture w0
       = Some (1, delivered w0 data)
       /\ (forall k, In k (keys data) -> In k output_fields)
       /\ NoDup (keys data)
       /\ ~ In "id"%string (keys data).
Proof.
  assert (Ha : accepted rain_capture) by by_evaluation.
  split; [exact Ha|].
  exact (emitted_keys_declared (-2) (-1) quiet rain_capture w0 Ha).
Defined.

Lemma checksum_is_byte_sum_witness :
  framed weather_capture
  /\ bresser_6in1_callback (-2) (-1) quiet weather_capture w0
     = Some (1, delivered w0 (record_of weather_capture)).
Proof.
  assert (Hf : framed weather_capture) by by_evaluation.
  split; [exact Hf|].
  apply (proj1 (checksum_is_byte_sum (-2) (-1) quiet weather_capture w0 Hf)).
  vm_compute. reflexivity.
Defined.

(** Bytes 7 and 9 exchanged: the packet is still accepted. *)
Lemma checksum_order_insensitive_witness :
  (framed weather_capture /\ framed swapped_capture
   /\ extracted swapped_capture 7 <> extracted weather_capture 7)
  /\ option_map fst (bresser_6in1_callback (-2) (-1) quiet swapped_capture w0)
     = Some 1.
Proof.
  assert (Hf : framed weather_capture) by by_evaluation.
  assert (Hf' : framed swapped_capture) by by_evaluation.
  split; [split_and!; [assumption | assumption |]; vm_compute; discriminate|].
  rewrite (checksum_order_insensitive (-2) (-1) quiet weather_capture
             swapped_capture w0 7 9 Hf Hf').
  - vm_compute. reflexivity.
  - lia.
  - lia.
  - vm_compute. reflexivity.
  - vm_compute. reflexivity.
  - same_bytes.
Defined.

Lemma checksum_completion_witness :
  ((forall i : nat, 0 <= (fun _ : nat => 0) i < 256) /\ (2 <= 17 <= 17)%nat)
  /\ exists v,
       0 <= v < 256
       /\ option_map fst
            (bresser_decode_msg quiet
               (map Some (map (set_byte (fun _ => 0) 17 v) (seq 0 18))) w0)
          = Some 1.
Proof.
  assert (R : forall i : nat, 0 <= (fun _ : nat => 0) i < 256) by (intros i; lia).
  assert (Hk : (2 <= 17 <= 17)%nat) by lia.
  split; [split; assumption|].
  destruct (checksum_completion quiet (fun _ => 0) 17 w0 R Hk) as (v & Hv & _).
  exists v. exact Hv.
Defined.

Lemma short_rows_rejected_witness :
  (shape_ok row175_capture /\ row_bits_len row175_capture 0 < 176)
  /\ exists w',
       bresser_6in1_callback (-2) (-1) quiet row175_capture w0 = Some (-1, w')
       /\ sink w' = sink w0.
Proof.
  assert (Hs : shape_ok row175_capture) by by_evaluation.
  assert (Hl : row_bits_len row175_capture 0 < 176) by (vm_compute; reflexivity).
  split; [split; assumption|].
  exact (short_rows_rejected (-2) (-1) quiet row175_capture w0 Hs Hl).
Defined.


(** Raw 812: a temperature below zero. *)
Lemma delivered_values_bounded_witness :
  accepted cold_capture
  /\ exists data t,
       bresser_6in1_callback (-2) (-1) quiet cold_capture w0
       = Some (1, delivered w0 data)
       /\ field "temperature_C" data = Some (DATA_DOUBLE t)
       /\ (-40 <= SF2Q t <= 66)%Q /\ (SF2Q t < 0)%Q.
Proof.
  assert (Ha : accepted cold_capture) by by_evaluation.
  split; [exact Ha|].
  destruct (delivered_values_bounded (-2) (-1) quiet cold_capture w0 Ha)
    as (data & _ & _ & _ & Hrun & _ & _ & _ & _ & _ & _ & _ & _ & _ & _ & Hweather).
  destruct Hweather as (t & Hfield & _ & Hb & Hneg); [vm_compute; discriminate|].
  exists data, t. split_and!; try assumption; try apply Hb.
  apply Hneg. vm_compute. split; discriminate.
Defined.

(** Gust raw 50 against gust raw 100. *)
Lemma scaling_strictly_increasing_witness :
  (accepted swapped_capture /\ accepted weather_capture)
  /\ exists data data' gust gust',
       bresser_6in1_callback (-2) (-1) quiet swapped_capture w0
       = Some (1, delivered w0 data)
       /\ bresser_6in1_callback (-2) (-1) quiet weather_capture w0
          = Some (1, delivered w0 data')
       /\ field "wind_gust" data = Some (DATA_DOUBLE gust)
       /\ field "wind_gust" data' = Some (DATA_DOUBLE gust')
       /\ (SF2Q gust < SF2Q gust')%Q.
Proof.
  assert (Ha : accepted swapped_capture) by by_evaluation.
  assert (Ha' : accepted weather_capture) by by_evaluation.
  split; [split; assumption|].
  destruct (scaling_strictly_increasing (-2) (-1) quiet swapped_capture
              weather_capture w0 Ha Ha')
    as (data & data' & gust & gust' & _ & _ & Hrun & Hrun' & Hg & Hg' & _ & _
        & Hlt & _).
  exists data, data', gust, gust'. split_and!; try assumption.
  apply Hlt. vm_compute. reflexivity.
Defined.
